(** * lambda-builder: the build pipeline of [builders/main.go]

    A shallow embedding of the Go package [builders]: the configuration
    records, the resolution of build and run images, the sandbox execution,
    the pipeline [executeBuilder] with its deferred clean-ups, and the
    Dockerfile template [t1] together with the fragment of [html/template]
    that [generateDockerfile] exercises. *)

From Stdlib Require Import ZArith Ascii DecimalString DecimalZ.
From stdpp Require Import gmap strings.

Local Open Scope Z_scope.

(** ** Byte strings

    A Go [string] is a sequence of bytes; it is modelled by [string]
    (a list of 8-bit [ascii] characters). *)

Module Text.

Definition nl : string := String "010"%char "".
Definition dquote : string := String "034"%char "".

Lemma app_nil_l (s : string) : "" +:+ s = s.
Proof. reflexivity. Qed.

Lemma app_cons (a : ascii) (s t : string) :
  String a s +:+ t = String a (s +:+ t).
Proof. reflexivity. Qed.

Lemma app_nil_r (s : string) : s +:+ "" = s.
Proof. induction s as [|a s IH]; [done|]. by rewrite app_cons, IH. Qed.

Lemma app_assoc (s t u : string) : (s +:+ t) +:+ u = s +:+ t +:+ u.
Proof. induction s as [|a s IH]; [done|]. by rewrite !app_cons, IH. Qed.

Lemma app_eq_nil (s t : string) : s +:+ t = "" → s = "" ∧ t = "".
Proof. destruct s; [done|]. by rewrite app_cons. Qed.

(** [s] occurs in [t] as a contiguous run of bytes. *)
Definition contains (t s : string) : Prop :=
  ∃ pre post : string, t = pre +:+ s +:+ post.

Fixpoint containsb (t s : string) : bool :=
  String.prefix s t ||
  match t with
  | "" => false
  | String _ t' => containsb t' s
  end.

Lemma prefix_spec (s t : string) :
  String.prefix s t = true ↔ ∃ post, t = s +:+ post.
Proof.
  revert t. induction s as [|a s IH]; intros t.
  - split; [intros _; by exists t|]. by destruct t.
  - destruct t as [|b t]; simpl.
    + split; [done|]. intros [post Hp]. by rewrite app_cons in Hp.
    + destruct (ascii_dec a b) as [->|Hab].
      * rewrite IH. split; intros [post Hp]; exists post.
        -- by rewrite app_cons, Hp.
        -- rewrite app_cons in Hp. by simplify_eq.
      * split; [done|]. intros [post Hp]. rewrite app_cons in Hp. by simplify_eq.
Qed.

Lemma containsb_spec (t s : string) : containsb t s = true ↔ contains t s.
Proof.
  induction t as [|b t IH].
  - cbn [containsb]. rewrite orb_false_r, prefix_spec. split.
    + intros [post Hp]. by exists "", post.
    + intros [pre [post Hp]]. symmetry in Hp.
      apply app_eq_nil in Hp as [-> Hp]. apply app_eq_nil in Hp as [-> ->].
      by exists "".
  - cbn [containsb]. rewrite orb_true_iff, IH, prefix_spec. split.
    + intros [[post Hp]|[pre [post Hp]]].
      * by exists "", post.
      * exists (String b pre), post. by rewrite app_cons, Hp.
    + intros [[|a pre] [post Hp]].
      * left. by exists post.
      * right. rewrite app_cons in Hp. simplify_eq. by exists pre, post.
Qed.

Lemma contains_app_l (t u s : string) : contains t s → contains (t +:+ u) s.
Proof.
  intros [pre [post ->]]. exists pre, (post +:+ u). by rewrite !app_assoc.
Qed.

Lemma contains_app_r (t u s : string) : contains u s → contains (t +:+ u) s.
Proof.
  intros [pre [post ->]]. exists (t +:+ pre), post. by rewrite !app_assoc.
Qed.

Lemma contains_refl (s : string) : contains s s.
Proof. exists "", "". by rewrite app_nil_r. Qed.

(** Concatenation of a list of strings, in order. *)
Fixpoint join (l : list string) : string :=
  match l with
  | [] => ""
  | s :: l' => s +:+ join l'
  end.

Lemma join_app (l k : list string) : join (l ++ k) = join l +:+ join k.
Proof. induction l as [|s l IH]; [done|]. simpl. by rewrite IH, app_assoc. Qed.

(** The lines of a text: the runs of bytes between line breaks. *)
Definition isNl (c : ascii) : bool := bool_decide (c = "010"%char).

Fixpoint lines (s : string) : list string :=
  match s with
  | "" => [""]
  | String c s' =>
      if isNl c then "" :: lines s'
      else
        match lines s' with
        | l :: ls => String c l :: ls
        | [] => [String c ""]
        end
  end.

(** The lines that hold something. *)
Definition nonblank (ls : list string) : list string :=
  filter (λ l, l ≠ "") ls.

Fixpoint oneLine (s : string) : bool :=
  match s with
  | "" => true
  | String c s' => negb (isNl c) && oneLine s'
  end.

Lemma lines_cons (s : string) : ∃ l ls, lines s = l :: ls.
Proof.
  destruct s as [|c s]; cbn [lines]; [by eexists _, _|].
  destruct (isNl c); [by eexists _, _|]. destruct (lines s); by eexists _, _.
Qed.

Lemma lines_app_nl (s t : string) : lines (s +:+ nl +:+ t) = lines s ++ lines t.
Proof.
  induction s as [|c s IH]; [done|].
  rewrite app_cons. cbn [lines]. rewrite IH.
  destruct (isNl c); [done|]. by destruct (lines_cons s) as (l & ls & ->).
Qed.

Lemma lines_oneLine (s : string) : oneLine s = true → lines s = [s].
Proof.
  induction s as [|c s IH]; [done|].
  cbn [oneLine lines]. intros [Hc Hs]%andb_true_iff.
  apply negb_true_iff in Hc. by rewrite Hc, IH.
Qed.

Lemma oneLine_app (s t : string) : oneLine (s +:+ t) = oneLine s && oneLine t.
Proof.
  induction s as [|c s IH]; [done|].
  rewrite app_cons. cbn [oneLine]. by rewrite IH, andb_assoc.
Qed.

Lemma nonblank_app (l k : list string) : nonblank (l ++ k) = nonblank l ++ nonblank k.
Proof. apply filter_app. Qed.

Lemma nonblank_blank : nonblank [""] = [].
Proof. reflexivity. Qed.

Lemma nonblank_single (s t : string) : s ≠ "" → nonblank [s +:+ t] = [s +:+ t].
Proof.
  intros Hs. unfold nonblank. rewrite filter_cons_True; [done|].
  by intros [? _]%app_eq_nil.
Qed.

End Text.

(** ** [strconv.Itoa] and the [%d] verb: the decimal form of an [int] *)

Definition Itoa (i : Z) : string := NilZero.string_of_int (Z.to_int i).

Example Itoa_minus_one : Itoa (-1) = "-1".
Proof. reflexivity. Qed.

Example Itoa_zero : Itoa 0 = "0".
Proof. reflexivity. Qed.

Example Itoa_8080 : Itoa 8080 = "8080".
Proof. reflexivity. Qed.

(** A Go [error] is modelled by its message: [fmt.Errorf] with [%w] or
    [%s] renders the message of the wrapped error into the new one. *)
Definition error : Type := string.

(** ** The fragment of [html/template] used by [generateDockerfile]

    [generateDockerfile] imports [html/template], not [text/template]:
    every action that prints a value is rewritten by the package's
    contextual escaper before execution.  The template [t1] never opens a
    tag (its text holds no [<]), so every action sits in HTML text context
    and is piped through the ordinary HTML escaper. *)

Module Template.

(** [htmlReplacementTable] of [html/template]: the bytes that the HTML
    escaper rewrites.  NUL becomes U+FFFD (three bytes in UTF-8); every
    byte that is not listed, all bytes above 127 among them, is copied. *)
Definition htmlReplacementTable (c : ascii) : option string :=
  match c with
  | "000"%char => Some (String "239" (String "191" (String "189" "")))
  | "034"%char => Some "&#34;"
  | "&"%char => Some "&amp;"
  | "'"%char => Some "&#39;"
  | "+"%char => Some "&#43;"
  | "<"%char => Some "&lt;"
  | ">"%char => Some "&gt;"
  | _ => None
  end.

Fixpoint htmlEscaper (s : string) : string :=
  match s with
  | "" => ""
  | String c s' =>
      match htmlReplacementTable c with
      | Some repl => repl +:+ htmlEscaper s'
      | None => String c (htmlEscaper s')
      end
  end.

(** Values that reach the template: the entries of the data map are
    strings or a slice of strings; a comparison yields a boolean; a key
    that the map lacks yields the invalid value, printed [<no value>]. *)
Inductive value :=
| VString (s : string)
| VStrings (l : list string)
| VBool (b : bool)
| VNoValue.

(** The cursor [.]: the data map at top level, the current element
    inside [range]. *)
Inductive dot :=
| DotData (m : gmap string value)
| DotValue (v : value).

Inductive arg :=
| Field (name : string)          (* .name *)
| Dot                            (* . *)
| StringLit (s : string).        (* a quoted constant *)

Inductive pipeline :=
| Single (a : arg)               (* a lone operand *)
| Ne (a b : arg).                (* ne a b *)

#[warnings="-register-all"]
Inductive node :=
| TextNode (text : string)
| ActionNode (p : pipeline)
| IfNode (p : pipeline) (body : list node)
| RangeNode (p : pipeline) (body : list node).

(** Field access.  On a map a missing key is not an error under the
    default [missingkey] option: the result is the invalid value. *)
Definition evalArg (d : dot) (a : arg) : error + value :=
  match a with
  | StringLit s => inr (VString s)
  | Dot =>
      match d with
      | DotValue v => inr v
      | DotData _ => inl "unmodelled: the data map used as a value"
      end
  | Field name =>
      match d with
      | DotData m => inr (default VNoValue (m !! name))
      | DotValue _ => inl ("can't evaluate field " +:+ name)
      end
  end.

(** The builtin [eq] on two operands, as in the Go releases that have
    [os.MkdirTemp], which this package calls.  Two strings and two
    booleans compare by value.  When the kinds differ and one side is the
    invalid value the answer is [false] without an error; when both sides
    are valid the kinds are incompatible.  A slice is not comparable. *)
Definition builtin_eq (v1 v2 : value) : error + bool :=
  match v1, v2 with
  | VStrings _, _ => inl "error calling eq: uncomparable type []string"
  | VString s1, VString s2 => inr (bool_decide (s1 = s2))
  | VBool b1, VBool b2 => inr (bool_decide (b1 = b2))
  | VNoValue, VNoValue => inr true
  | VNoValue, _ | _, VNoValue => inr false
  | _, _ => inl "error calling eq: incompatible types for comparison"
  end.

(** The builtin [ne] is the negation of [eq] and forwards its error. *)
Definition builtin_ne (v1 v2 : value) : error + bool :=
  match builtin_eq v1 v2 with
  | inl e => inl e
  | inr b => inr (negb b)
  end.

Definition evalPipeline (d : dot) (p : pipeline) : error + value :=
  match p with
  | Single a => evalArg d a
  | Ne a b =>
      match evalArg d a with
      | inl e => inl e
      | inr v1 =>
          match evalArg d b with
          | inl e => inl e
          | inr v2 =>
              match builtin_ne v1 v2 with
              | inl e => inl e
              | inr t => inr (VBool t)
              end
          end
      end
  end.

(** [isTrue]: the truth of a value in [if]. *)
Definition isTrue (v : value) : bool :=
  match v with
  | VBool b => b
  | VString s => negb (bool_decide (s = ""))
  | VStrings l => negb (bool_decide (l = []))
  | VNoValue => false
  end.

(** What an escaped action writes.  Only strings are printed by [t1]. *)
Definition printValue (v : value) : error + string :=
  match v with
  | VString s => inr (htmlEscaper s)
  | VBool true => inr "true"
  | VBool false => inr "false"
  | VStrings _ => inl "unmodelled: printing a slice"
  | VNoValue => inl "unmodelled: printing the invalid value"
  end.

(** Execution writes to the output as it goes: the result is the text
    written so far, and the error that stopped execution, if any. *)
Definition output : Type := string * option error.

Definition andThen (r k : output) : output :=
  match r with
  | (o, Some e) => (o, Some e)
  | (o, None) => (o +:+ k.1, k.2)
  end.

Definition sequence (l : list output) : output := foldr andThen ("", None) l.

Fixpoint walk (d : dot) (n : node) {struct n} : output :=
  match n with
  | TextNode text => (text, None)
  | ActionNode p =>
      match evalPipeline d p with
      | inl e => ("", Some e)
      | inr v =>
          match printValue v with
          | inl e => ("", Some e)
          | inr s => (s, None)
          end
      end
  | IfNode p body =>
      match evalPipeline d p with
      | inl e => ("", Some e)
      | inr v => if isTrue v then sequence (map (walk d) body) else ("", None)
      end
  | RangeNode p body =>
      match evalPipeline d p with
      | inl e => ("", Some e)
      | inr (VStrings l) =>
          sequence
            (map (λ x, sequence (map (walk (DotValue (VString x))) body)) l)
      | inr _ => ("", Some "range can't iterate over value")
      end
  end.

(** [Template.Execute]: the nodes of the parsed template in order,
    with the data as the cursor. *)
Definition Execute (t : list node) (data : gmap string value) : output :=
  sequence (map (walk (DotData data)) t).

End Template.

(** ** Configuration records *)

Record Config := mkConfig {
  BuildEnv : list string;
  Builder : string;
  BuilderBuildImage : string;
  BuilderRunImage : string;
  GenerateRunImage : bool;
  Handler : string;
  HandlerMap : gmap string string;
  Identifier : string;
  ImageEnv : list string;
  ImageLabels : list string;
  ImageTag : string;
  Port : Z;
  RunQuiet : bool;
  WorkingDirectory : string;
  WriteProcfile : bool
}.

Record LambdaYML := mkLambdaYML {
  yml_Builder : string;
  yml_BuildImage : string;
  yml_RunImage : string
}.

(** The zero value of [LambdaYML] ([var lambdaYML LambdaYML]). *)
Definition zeroLambdaYML : LambdaYML := mkLambdaYML "" "" "".

(** ** Paths ([path/filepath], Unix) *)

Module filepath.

Definition isSep (c : ascii) : bool := bool_decide (c = "/"%char).

Fixpoint dropSeps (r : list ascii) : list ascii :=
  match r with
  | c :: r' => if isSep c then dropSeps r' else r
  | [] => []
  end.

Fixpoint lastElem (r : list ascii) : list ascii :=
  match r with
  | c :: r' => if isSep c then [] else c :: lastElem r'
  | [] => []
  end.

(** [filepath.Base]: the last element of the path, trailing separators
    removed first; ["."] for the empty path, ["/"] for separators only. *)
Definition Base (path : string) : string :=
  if bool_decide (path = "") then "."
  else
    let r := dropSeps (reverse (String.list_ascii_of_string path)) in
    if bool_decide (r = []) then "/"
    else String.string_of_list_ascii (reverse (lastElem r)).

(** [filepath.Join] of a directory and a file name.  The lexical
    clean-up that [Join] applies afterwards is not modelled: directory
    names are taken in clean form. *)
Definition Join (dir name : string) : string :=
  if bool_decide (dir = "") then name else dir +:+ "/" +:+ name.

End filepath.

Definition GetImageTag (c : Config) : string :=
  if bool_decide (ImageTag c ≠ "") then ImageTag c
  else
    let appName := filepath.Base (WorkingDirectory c) in
    "lambda-builder/" +:+ appName +:+ ":latest".

(** ** The Dockerfile template

    The source text handed to [Parse] (each double quote of the source
    is shown as a single quote here):
<<
FROM {{ .run_image }}
{{ if ne .port '-1' }}
ENV DOCKER_LAMBDA_API_PORT={{ .port }}
ENV DOCKER_LAMBDA_RUNTIME_PORT={{ .port }}
{{ end }}
{{range .env}}
ENV {{.}}
{{end}}
{{ if ne .command '' }}
CMD ['{{ .cmd }}']
{{ end }}
COPY . /var/task
>>
    The raw string starts with a line break, and no action trims the
    white space around it, so every line break of the source is part of
    a text node.  The text is constant and well formed: [Parse] does not
    fail on it. *)

Import Template.

Definition t1 : list node :=
  [ TextNode (Text.nl +:+ "FROM ");
    ActionNode (Single (Field "run_image"));
    TextNode Text.nl;
    IfNode (Ne (Field "port") (StringLit "-1"))
      [ TextNode (Text.nl +:+ "ENV DOCKER_LAMBDA_API_PORT=");
        ActionNode (Single (Field "port"));
        TextNode (Text.nl +:+ "ENV DOCKER_LAMBDA_RUNTIME_PORT=");
        ActionNode (Single (Field "port"));
        TextNode Text.nl ];
    TextNode Text.nl;
    RangeNode (Single (Field "env"))
      [ TextNode (Text.nl +:+ "ENV ");
        ActionNode (Single Dot);
        TextNode Text.nl ];
    TextNode Text.nl;
    IfNode (Ne (Field "command") (StringLit ""))
      [ TextNode (Text.nl +:+ "CMD [" +:+ Text.dquote);
        ActionNode (Single (Field "cmd"));
        TextNode (Text.dquote +:+ "]" +:+ Text.nl) ];
    TextNode (Text.nl +:+ "COPY . /var/task" +:+ Text.nl) ].

(** The [data] map built by [generateDockerfile]. *)
Definition dockerfileData (cmd : string) (config : Config) : gmap string value :=
  <["cmd" := VString cmd]>
  (<["env" := VStrings (ImageEnv config)]>
  (<["port" := VString (Itoa (Port config))]>
  (<["run_image" := VString (BuilderRunImage config)]> ∅))).

(** The text that [tpl.Execute] writes for [generateDockerfile cmd config],
    and the error it stops with. *)
Definition renderDockerfile (cmd : string) (config : Config) : output :=
  Execute t1 (dockerfileData cmd config).

(** *** Facts about [Itoa] *)

Lemma to_int_not_nil (i : Z) : Z.to_int i ≠ Decimal.Pos Decimal.Nil ∧ Z.to_int i ≠ Decimal.Neg Decimal.Nil.
Proof.
  rewrite <- (DecimalZ.of_to i) at 1 2. rewrite DecimalZ.to_of.
  destruct (Z.to_int i) as [d|d]; simpl; unfold Decimal.unorm;
    destruct (Decimal.nzhead d); split; discriminate.
Qed.

Lemma Itoa_parse (i : Z) : NilZero.int_of_string (Itoa i) = Some (Z.to_int i).
Proof. unfold Itoa. destruct (to_int_not_nil i). by apply NilZero.isi. Qed.

Lemma Itoa_inj (i j : Z) : Itoa i = Itoa j → i = j.
Proof.
  intros Heq. apply DecimalZ.to_int_inj.
  assert (Some (Z.to_int i) = Some (Z.to_int j)) as [= ->]; [|done].
  by rewrite <- !Itoa_parse, Heq.
Qed.

Lemma Itoa_sentinel (i : Z) : Itoa i = "-1" ↔ i = -1.
Proof. split; [apply (Itoa_inj i (-1))|by intros ->]. Qed.

Lemma htmlEscaper_digits (d : Decimal.uint) :
  htmlEscaper (NilEmpty.string_of_uint d) = NilEmpty.string_of_uint d.
Proof. induction d; simpl; by rewrite ?IHd. Qed.

Lemma htmlEscaper_Itoa (i : Z) : htmlEscaper (Itoa i) = Itoa i.
Proof.
  unfold Itoa. destruct (Z.to_int i) as [d|d]; simpl.
  - destruct d; try done; apply (htmlEscaper_digits (_ d)).
  - f_equal. destruct d; try done; apply (htmlEscaper_digits (_ d)).
Qed.

Lemma oneLine_digits (d : Decimal.uint) : Text.oneLine (NilEmpty.string_of_uint d) = true.
Proof. induction d; by simpl. Qed.

Lemma oneLine_Itoa (i : Z) : Text.oneLine (Itoa i) = true.
Proof.
  unfold Itoa. destruct (Z.to_int i) as [d|d]; simpl.
  - destruct d; try done; apply (oneLine_digits (_ d)).
  - destruct d; try done; apply (oneLine_digits (_ d)).
Qed.

(** *** The rendered document, section by section *)

Definition fromLine (runImage : string) : string :=
  Text.nl +:+ "FROM " +:+ htmlEscaper runImage +:+ Text.nl.

Definition portLines (port : Z) : string :=
  Text.nl +:+ "ENV DOCKER_LAMBDA_API_PORT=" +:+ Itoa port +:+
  Text.nl +:+ "ENV DOCKER_LAMBDA_RUNTIME_PORT=" +:+ Itoa port +:+ Text.nl.

Definition portSection (port : Z) : string :=
  if bool_decide (port = -1) then "" else portLines port.

Definition envLine (entry : string) : string :=
  Text.nl +:+ "ENV " +:+ htmlEscaper entry +:+ Text.nl.

Definition envSection (env : list string) : string :=
  Text.join (map envLine env).

Definition cmdLine (cmd : string) : string :=
  Text.nl +:+ "CMD [" +:+ Text.dquote +:+ htmlEscaper cmd +:+ Text.dquote +:+ "]" +:+ Text.nl.

Definition copyLine : string := Text.nl +:+ "COPY . /var/task" +:+ Text.nl.

Lemma sequence_text (l : list string) :
  sequence (map (λ s, (s, None)) l) = (Text.join l, None).
Proof. induction l as [|s l IH]; [done|]. simpl. by rewrite IH. Qed.

Lemma range_env (env : list string) :
  sequence
    (map (λ x, andThen (Text.nl +:+ "ENV ", None)
                 (andThen (htmlEscaper x, None) (andThen (Text.nl, None) ("", None)))) env)
  = (envSection env, None).
Proof.
  unfold envSection. rewrite <- sequence_text, map_map. by f_equal.
Qed.

Lemma renderDockerfile_sections (cmd : string) (config : Config) :
  renderDockerfile cmd config =
    (fromLine (BuilderRunImage config) +:+ portSection (Port config) +:+ Text.nl +:+
     envSection (ImageEnv config) +:+ Text.nl +:+ cmdLine cmd +:+ copyLine, None).
Proof.
  unfold renderDockerfile, Execute, dockerfileData, t1.
  cbn [map sequence foldr walk evalPipeline evalArg].
  repeat (rewrite ?lookup_insert_eq, ?lookup_insert_ne, ?lookup_empty by done).
  cbn [default id printValue builtin_ne builtin_eq isTrue negb].
  rewrite range_env.
  unfold portSection, portLines, fromLine, cmdLine, copyLine.
  rewrite htmlEscaper_Itoa.
  case_bool_decide as Hp; case_bool_decide as Hq; rewrite Itoa_sentinel in Hp; try done;
    cbn [andThen fst snd negb isTrue]; by rewrite ?Text.app_nil_r, ?Text.app_assoc.
Qed.

(** ** The host: processes and the file system

    The pipeline talks to the outside through [go-execute] (the [docker]
    binary), [os], [io/ioutil], [extract] and [yaml].  Their behaviour on a
    given machine is the [Host]; theorems hold for every host. *)

Record ExecTask := mkExecTask {
  Args : list string;
  Command : string;
  Cwd : string;
  StreamStdio : bool
}.

Record ExecResult := mkExecResult { ExitCode : Z }.

(** An open [os.File]; a [*os.File] is an [option File], [None] for [nil]. *)
Record File := mkFile { file_name : string }.

(** Calls that leave the process or change the file system, as they are
    made. *)
Inductive Call :=
| CallExecute (task : ExecTask)
| CallMkdirTemp
| CallExtract (dest : string)
| CallWriteProcfile (handler dir : string)
| CallTempFile
| CallWrite (path text : string)
| CallRemoveAll (dir : string)
| CallRemove (path : string).

Record World := mkWorld {
  files : gmap string string;      (* regular files: path to content *)
  stdout : list string;            (* what [fmt.Printf] has printed *)
  calls : list Call                (* calls made so far, oldest first *)
}.

Record Host := mkHost {
  (* [ExecTask.Execute]: the launch error, or the exit status; the
     process may change files *)
  host_Execute : ExecTask → gmap string string → (error + ExecResult) * gmap string string;
  (* [os.MkdirTemp]: the fresh directory, or the error *)
  host_MkdirTemp : gmap string string → error + string;
  (* [ioutil.TempFile]: the name of the fresh file, or the error *)
  host_TempFile : gmap string string → error + string;
  (* a file that is present but cannot be opened *)
  host_openFault : string → option error;
  (* a file whose reading stops with an error after so many bytes *)
  host_readFault : string → option (nat * error);
  (* a file that cannot be created or written *)
  host_writeFault : string → option error;
  (* [extract.Zip] of archive bytes into a directory: it may fail half
     way and leave what it has written *)
  host_extractZip : string → string → gmap string string → option error * gmap string string;
  (* [yaml.Unmarshal] into a zero [LambdaYML] *)
  host_yamlUnmarshal : string → LambdaYML * option error;
  (* the handler-detection strategy over the extracted tree *)
  host_detectHandler : string → Config → gmap string string → string
}.

(** A Go function either returns or panics. *)
Inductive result (A : Type) :=
| Returns (a : A)
| Panics (msg : string).
Arguments Returns {A} a.
Arguments Panics {A} msg.

Definition M (A : Type) : Type := World → result A * World.

Definition ret {A} (a : A) : M A := λ w, (Returns a, w).

Definition bind {A B} (m : M A) (k : A → M B) : M B := λ w,
  match m w with
  | (Returns a, w') => k a w'
  | (Panics msg, w') => (Panics msg, w')
  end.

Definition panic {A} (msg : string) : M A := λ w, (Panics msg, w).

(** [defer cleanup] followed by [body]: the clean-up runs when the body
    has returned or panicked; a panic of the clean-up replaces the result. *)
Definition defer {A} (cleanup : M unit) (body : M A) : M A := λ w,
  let '(r, w1) := body w in
  match cleanup w1 with
  | (Returns _, w2) => (r, w2)
  | (Panics msg, w2) => (Panics msg, w2)
  end.

Declare Scope go_scope.
Delimit Scope go_scope with go.
Notation "x <- m ;; k" := (bind m (λ x, k))
  (at level 100, m at next level, right associativity) : go_scope.
Notation "m ;; k" := (bind m (λ _, k))
  (at level 100, right associativity) : go_scope.
Local Open Scope go_scope.

Definition getFiles : M (gmap string string) := λ w, (Returns (files w), w).

Definition setFiles (fs : gmap string string) : M unit := λ w,
  (Returns (), mkWorld fs (stdout w) (calls w)).

Definition record (c : Call) : M unit := λ w,
  (Returns (), mkWorld (files w) (stdout w) (calls w ++ [c])).

Definition Printf (line : string) : M unit := λ w,
  (Returns (), mkWorld (files w) (stdout w ++ [line]) (calls w)).

Section Pipeline.

Variable H : Host.

(** *** [os] and [io/ioutil] *)

Definition os_MkdirTemp : M (error + string) :=
  record CallMkdirTemp;;
  fs <- getFiles;;
  ret (host_MkdirTemp H fs).

Definition ioutil_TempFile : M (option File * option error) :=
  record CallTempFile;;
  fs <- getFiles;;
  match host_TempFile H fs with
  | inl err => ret (None, Some err)
  | inr name => setFiles (<[name := ""]> fs);; ret (Some (mkFile name), None)
  end.

(** [File.Name] reads a field through the receiver: on [nil] it
    panics. *)
Definition File_Name (f : option File) : M string :=
  match f with
  | Some f => ret (file_name f)
  | None => panic "runtime error: invalid memory address or nil pointer dereference"
  end.

(** [File.Write] appends to the file; on [nil] it is an error. *)
Definition File_Write (f : option File) (text : string) : M (option error) :=
  match f with
  | None => ret (Some "invalid argument")
  | Some f =>
      record (CallWrite (file_name f) text);;
      fs <- getFiles;;
      setFiles (<[file_name f := default "" (fs !! file_name f) +:+ text]> fs);;
      ret None
  end.

Definition os_Remove (path : string) : M unit :=
  record (CallRemove path);;
  fs <- getFiles;;
  setFiles (delete path fs).

Definition under (dir path : string) : bool :=
  bool_decide (path = dir) || String.prefix (dir +:+ "/") path.

Definition os_RemoveAll (dir : string) : M unit :=
  record (CallRemoveAll dir);;
  fs <- getFiles;;
  setFiles (filter (λ kv, under dir kv.1 = false) fs).

(** [os.Open]: the error, or the open file (never both, never neither). *)
Definition os_Open (path : string) : M (error + File) :=
  fs <- getFiles;;
  match fs !! path with
  | None => ret (inl ("open " +:+ path +:+ ": no such file or directory"))
  | Some _ =>
      match host_openFault H path with
      | Some err => ret (inl err)
      | None => ret (inr (mkFile path))
      end
  end.

(** [ioutil.ReadAll]: the bytes read, and the error that stopped the
    reading, if any. *)
Definition ioutil_ReadAll (f : File) : M (string * option error) :=
  fs <- getFiles;;
  let content := default "" (fs !! file_name f) in
  match host_readFault H (file_name f) with
  | Some (n, err) => ret (String.substring 0 n content, Some err)
  | None => ret (content, None)
  end.

Definition ioutil_ReadFile (path : string) : M (string * option error) :=
  r <- os_Open path;;
  match r with
  | inl err => ret ("", Some err)
  | inr f => ioutil_ReadAll f
  end.

Definition extract_Zip (data dest : string) : M (option error) :=
  record (CallExtract dest);;
  fs <- getFiles;;
  let '(err, fs') := host_extractZip H data dest fs in
  setFiles fs';;
  ret err.

Definition ExecTask_Execute (task : ExecTask) : M (error + ExecResult) :=
  record (CallExecute task);;
  fs <- getFiles;;
  let '(res, fs') := host_Execute H task fs in
  setFiles fs';;
  ret res.

(** *** Helpers of the repository that live outside [builders/main.go] *)

(** Modelled from the spec: [io.FileExistsInDirectory], the generic
    file-existence helper, is declared in package [io] of the repository.
    It reports whether the named file is present in the directory. *)
Definition FileExistsInDirectory (directory filename : string) : M bool :=
  fs <- getFiles;;
  ret (bool_decide (is_Some (fs !! filepath.Join directory filename))).

(** Modelled from the spec: the single-line declaration that maps the
    process type [web] to the handler. *)
Definition procfileLine (handler : string) : string := "web: " +:+ handler.

(** Modelled from the spec: [writeProcfile] is declared in another file of
    the package.  It writes the declaration line to the file [Procfile] of
    the directory and fails when that write fails. *)
Definition writeProcfile (handler directory : string) : M (option error) :=
  record (CallWriteProcfile handler directory);;
  let path := filepath.Join directory "Procfile" in
  match host_writeFault H path with
  | Some err => ret (Some err)
  | None =>
      fs <- getFiles;;
      setFiles (<[path := procfileLine handler]> fs);;
      ret None
  end.

(** Modelled from the spec: [getFunctionHandler] is declared in another
    file of the package.  An explicit [config.Handler] is returned as it
    is; otherwise the detection strategy inspects the extracted tree and
    returns its guess, empty when it finds nothing. *)
Definition getFunctionHandler (directory : string) (config : Config) : M string :=
  if bool_decide (Handler config ≠ "") then ret (Handler config)
  else
    fs <- getFiles;;
    ret (host_detectHandler H directory config fs).

(** *** [builders/main.go] *)

Definition sandboxTask (script : string) (config : Config) : ExecTask :=
  let args :=
    [ "container"; "run"; "--rm";
      "--env"; "LAMBDA_BUILD_ZIP=1";
      "--label"; "com.dokku.lambda-builder/executor=true";
      "--name"; "lambda-builder-executor-" +:+ Identifier config;
      "--volume"; WorkingDirectory config +:+ ":/tmp/task" ] in
  let args := foldl (λ args envPair, args ++ ["--env"; envPair]) args (BuildEnv config) in
  let args := args ++ [BuilderBuildImage config; "/bin/bash"; "-c"; script] in
  mkExecTask args "docker" (WorkingDirectory config) (negb (RunQuiet config)).

Definition executeBuildContainer (script : string) (config : Config) : M (option error) :=
  r <- ExecTask_Execute (sandboxTask script config);;
  match r with
  | inl err => ret (Some ("error executing builder: " +:+ err))
  | inr res =>
      if bool_decide (ExitCode res ≠ 0)
      then ret (Some ("error executing builder, exit code " +:+ Itoa (ExitCode res)))
      else ret None
  end.

Definition generateDockerfile (cmd : string) (config : Config)
    (dockerfilePath : option File) : M (option error) :=
  let '(text, err) := renderDockerfile cmd config in
  werr <- File_Write dockerfilePath text;;
  match werr, err with
  | Some e, _ | None, Some e => ret (Some ("error writing Dockerfile: " +:+ e))
  | None, None => ret None
  end.

Definition imageBuildTask (directory : string) (config : Config) (name : string) : ExecTask :=
  let args :=
    [ "image"; "build";
      "--file"; name;
      "--progress"; "plain";
      "--tag"; GetImageTag config ] in
  let args := foldl (λ args label, args ++ ["--label"; label]) args (ImageLabels config) in
  let args := args ++ [directory] in
  mkExecTask args "docker" (WorkingDirectory config) (negb (RunQuiet config)).

Definition buildDockerImage (directory : string) (config : Config)
    (dockerfilePath : option File) : M (option error) :=
  name <- File_Name dockerfilePath;;
  r <- ExecTask_Execute (imageBuildTask directory config name);;
  match r with
  | inl err => ret (Some ("error building image: " +:+ err))
  | inr res =>
      if bool_decide (ExitCode res ≠ 0)
      then ret (Some ("error building image, exit code " +:+ Itoa (ExitCode res)))
      else ret None
  end.

(** Lines 86 to 100 of [executeBuilder]: the body of the Procfile step. *)
Definition writeProcfiles (handler : string) (config : Config)
    (taskHostBuildDir : string) : M (option error) :=
  if bool_decide (handler = "") then
    Printf (" !     Unable to detect handler in build directory" +:+ Text.nl);;
    ret None
  else
    Printf ("=====> Writing Procfile from handler: " +:+ handler +:+ Text.nl);;
    Printf ("       Writing to working directory" +:+ Text.nl);;
    err <- writeProcfile handler (WorkingDirectory config);;
    match err with
    | Some e => ret (Some ("error writing Procfile to working directory: " +:+ e))
    | None =>
        Printf ("       Writing to build directory" +:+ Text.nl);;
        err <- writeProcfile handler taskHostBuildDir;;
        match err with
        | Some e =>
            ret (Some ("error writing Procfile to temporary build directory: " +:+ e))
        | None => ret None
        end
    end.

(** Lines 85 to 101 of [executeBuilder]: the Procfile step.  The
    conjunction of line 85 is evaluated left to right: the build directory
    is looked at only when writing is switched on. *)
Definition procfileStep (handler : string) (config : Config)
    (taskHostBuildDir : string) : M (option error) :=
  proceed <-
    (if WriteProcfile config then
       present <- FileExistsInDirectory taskHostBuildDir "Procfile";;
       ret (negb present)
     else ret false);;
  if proceed : bool then writeProcfiles handler config taskHostBuildDir
  else ret None.

(** Lines 103 to 126 of [executeBuilder]: the image step and the final
    [return nil].  The clean-up of the temporary Dockerfile is deferred
    before the error of [ioutil.TempFile] is looked at. *)
Definition imageStep (handler : string) (config : Config)
    (taskHostBuildDir : string) : M (option error) :=
  if GenerateRunImage config then
    Printf ("=====> Building image" +:+ Text.nl);;
    Printf ("       Generating temporary Dockerfile" +:+ Text.nl);;
    r <- ioutil_TempFile;;
    let '(dockerfilePath, err) := r in
    defer (name <- File_Name dockerfilePath;; os_Remove name)
      match err with
      | Some e => ret (Some ("error generating temporary Dockerfile: " +:+ e))
      | None =>
          err <- generateDockerfile handler config dockerfilePath;;
          match err with
          | Some e => ret (Some e)
          | None =>
              Printf ("       Executing build of " +:+ GetImageTag config +:+ Text.nl);;
              err <- buildDockerImage taskHostBuildDir config dockerfilePath;;
              match err with
              | Some e => ret (Some e)
              | None => ret None
              end
          end
      end
  else ret None.

Definition executeBuilder (script : string) (config : Config) : M (option error) :=
  err <- executeBuildContainer script config;;
  match err with
  | Some e => ret (Some e)
  | None =>
      r <- os_MkdirTemp;;
      match r with
      | inl e => ret (Some ("error creating build dir: " +:+ e))
      | inr taskHostBuildDir =>
          defer (os_RemoveAll taskHostBuildDir)
            (Printf ("-----> Extracting lambda.zip into build context dir" +:+ Text.nl);;
             let zipPath := filepath.Join (WorkingDirectory config) "lambda.zip" in
             r <- ioutil_ReadFile zipPath;;
             let data := r.1 in
             err <- extract_Zip data taskHostBuildDir;;
             match err with
             | Some e =>
                 ret (Some ("error extracting lambda.zip into build context dir: " +:+ e))
             | None =>
                 handler <- getFunctionHandler taskHostBuildDir config;;
                 err <- procfileStep handler config taskHostBuildDir;;
                 match err with
                 | Some e => ret (Some e)
                 | None => imageStep handler config taskHostBuildDir
                 end
             end)
      end
  end.

Definition ParseLambdaYML (config : Config) : M (LambdaYML * option error) :=
  let lambdaYML := zeroLambdaYML in
  present <- FileExistsInDirectory (WorkingDirectory config) "lambda.yml";;
  if negb present then ret (lambdaYML, None)
  else
    r <- os_Open (filepath.Join (WorkingDirectory config) "lambda.yml");;
    match r with
    | inl e => ret (lambdaYML, Some ("error opening lambda.yml: " +:+ e))
    | inr f =>
        (* [defer f.Close()]: closing changes nothing that is modelled *)
        r <- ioutil_ReadAll f;;
        match r with
        | (_, Some e) => ret (lambdaYML, Some ("error reading lambda.yml: " +:+ e))
        | (bytes, None) =>
            let '(lambdaYML, err) := host_yamlUnmarshal H bytes in
            match err with
            | Some e => ret (lambdaYML, Some ("error unmarshaling lambda.yml: " +:+ e))
            | None => ret (lambdaYML, None)
            end
        end
    end.

Definition getBuildImage (config : Config) (defaultImage : string) : M (string * option error) :=
  if bool_decide (BuilderBuildImage config ≠ "") then ret (BuilderBuildImage config, None)
  else
    r <- ParseLambdaYML config;;
    match r with
    | (_, Some err) => ret ("", Some err)
    | (lambdaYML, None) =>
        if bool_decide (yml_BuildImage lambdaYML = "") then ret (defaultImage, None)
        else ret (yml_BuildImage lambdaYML, None)
    end.

Definition getRunImage (config : Config) (defaultImage : string) : M (string * option error) :=
  if bool_decide (BuilderRunImage config ≠ "") then ret (BuilderRunImage config, None)
  else
    r <- ParseLambdaYML config;;
    match r with
    | (_, Some err) => ret ("", Some err)
    | (lambdaYML, None) =>
        if bool_decide (yml_RunImage lambdaYML = "") then ret (defaultImage, None)
        else ret (yml_RunImage lambdaYML, None)
    end.

End Pipeline.

(** ** Running the model *)

Ltac run :=
  unfold bind, ret, panic, record, getFiles, setFiles, Printf;
  cbn beta iota zeta delta [negb andb orb fst snd files stdout calls].

(** The world after [text] has been appended to the open file [path]. *)
Definition appendTo (path text : string) (w : World) : World :=
  mkWorld (<[path := default "" (files w !! path) +:+ text]> (files w))
          (stdout w) (calls w ++ [CallWrite path text]).

(** [config] with another port, another list of runtime environment
    entries. *)
Definition withPort (port : Z) (c : Config) : Config :=
  mkConfig (BuildEnv c) (Builder c) (BuilderBuildImage c) (BuilderRunImage c)
    (GenerateRunImage c) (Handler c) (HandlerMap c) (Identifier c) (ImageEnv c)
    (ImageLabels c) (ImageTag c) port (RunQuiet c) (WorkingDirectory c) (WriteProcfile c).

Definition withImageEnv (env : list string) (c : Config) : Config :=
  mkConfig (BuildEnv c) (Builder c) (BuilderBuildImage c) (BuilderRunImage c)
    (GenerateRunImage c) (Handler c) (HandlerMap c) (Identifier c) env
    (ImageLabels c) (ImageTag c) (Port c) (RunQuiet c) (WorkingDirectory c) (WriteProcfile c).

(** The whole document, from its sections. *)
Definition dockerfileText (cmd : string) (config : Config) : string :=
  fromLine (BuilderRunImage config) +:+ portSection (Port config) +:+ Text.nl +:+
  envSection (ImageEnv config) +:+ Text.nl +:+ cmdLine cmd +:+ copyLine.

Lemma generateDockerfile_writes (cmd : string) (config : Config) (f : File) (w : World) :
  generateDockerfile cmd config (Some f) w =
    (Returns None, appendTo (file_name f) (dockerfileText cmd config) w).
Proof.
  unfold generateDockerfile. rewrite renderDockerfile_sections.
  unfold File_Write. run. done.
Qed.

(** A small configuration and an open scratch file for the examples. *)
Definition exampleConfig : Config :=
  mkConfig [] "" "lambci/lambda:build-go1.x" "lambci/lambda:go1.x" true "" ∅
    "1a2b" [] [] "" (-1) false "/app" true.

Definition emptyWorld : World := mkWorld ∅ [] [].

Definition scratchFile : File := mkFile "/tmp/lambda-builder42".

(** * The Dockerfile generator *)

Lemma command_key_absent (cmd : string) (config : Config) :
  dockerfileData cmd config !! "command" = None ∧
  dockerfileData cmd config !! "cmd" = Some (VString cmd).
Proof. done. Qed.

(** C1, the code at the failing input.  The guard of the entry-point line
    reads the key [command], which the data map never holds (the handler
    is stored under [cmd]): the comparison with the empty string sees the
    invalid value and is true for every handler.  With the empty handler
    [generateDockerfile] still returns [nil] and the document it has
    written holds a [CMD] line, with an empty command. *)
Theorem empty_handler_still_renders_CMD (config : Config) (f : File) (w : World) :
  ∃ text : string,
    generateDockerfile "" config (Some f) w =
      (Returns None, appendTo (file_name f) text w) ∧
    Text.contains text
      (Text.nl +:+ "CMD [" +:+ Text.dquote +:+ Text.dquote +:+ "]" +:+ Text.nl).
Proof.
  exists (dockerfileText "" config). split; [apply generateDockerfile_writes|].
  unfold dockerfileText.
  do 5 apply Text.contains_app_r. apply Text.contains_app_l, Text.contains_refl.
Qed.

Example empty_handler_document :
  generateDockerfile "" exampleConfig (Some scratchFile) emptyWorld =
    (Returns None,
     appendTo "/tmp/lambda-builder42"
       (Text.nl +:+ "FROM lambci/lambda:go1.x" +:+ Text.nl +:+ Text.nl +:+ Text.nl +:+
        Text.nl +:+ "CMD [" +:+ Text.dquote +:+ Text.dquote +:+ "]" +:+ Text.nl +:+
        Text.nl +:+ "COPY . /var/task" +:+ Text.nl)
       emptyWorld).
Proof. by rewrite generateDockerfile_writes. Qed.

Lemma port_block_lines (pre post : string) (port : Z) :
  Text.nonblank (Text.lines ((pre +:+ Text.nl) +:+ portLines port +:+ Text.nl +:+ post)) =
    Text.nonblank (Text.lines pre) ++
    [ "ENV DOCKER_LAMBDA_API_PORT=" +:+ Itoa port;
      "ENV DOCKER_LAMBDA_RUNTIME_PORT=" +:+ Itoa port ] ++
    Text.nonblank (Text.lines post).
Proof.
  assert ((pre +:+ Text.nl) +:+ portLines port +:+ Text.nl +:+ post =
          pre +:+ Text.nl +:+ "" +:+ Text.nl +:+
          ("ENV DOCKER_LAMBDA_API_PORT=" +:+ Itoa port) +:+ Text.nl +:+
          ("ENV DOCKER_LAMBDA_RUNTIME_PORT=" +:+ Itoa port) +:+ Text.nl +:+
          "" +:+ Text.nl +:+ post) as ->.
  { unfold portLines. by rewrite !Text.app_assoc. }
  rewrite !Text.lines_app_nl.
  rewrite (Text.lines_oneLine ("ENV DOCKER_LAMBDA_API_PORT=" +:+ Itoa port))
    by (by rewrite Text.oneLine_app, oneLine_Itoa).
  rewrite (Text.lines_oneLine ("ENV DOCKER_LAMBDA_RUNTIME_PORT=" +:+ Itoa port))
    by (by rewrite Text.oneLine_app, oneLine_Itoa).
  cbn [Text.lines].
  rewrite !Text.nonblank_app, Text.nonblank_blank, !Text.nonblank_single by done.
  done.
Qed.

Lemma no_port_block_lines (pre post : string) :
  Text.nonblank (Text.lines ((pre +:+ Text.nl) +:+ Text.nl +:+ post)) =
    Text.nonblank (Text.lines pre) ++ Text.nonblank (Text.lines post).
Proof.
  assert ((pre +:+ Text.nl) +:+ Text.nl +:+ post =
          pre +:+ Text.nl +:+ "" +:+ Text.nl +:+ post) as ->.
  { by rewrite !Text.app_assoc. }
  rewrite !Text.lines_app_nl. cbn [Text.lines].
  by rewrite !Text.nonblank_app, Text.nonblank_blank.
Qed.

(** C4.  The two port lines are rendered exactly when the port is not the
    sentinel [-1].  Around them the document is the same for every port:
    [pre] and [post] are chosen before the port.  The sentinel leaves
    nothing between the two parts; any other port puts there a line break
    and the two lines [ENV DOCKER_LAMBDA_API_PORT=port] and
    [ENV DOCKER_LAMBDA_RUNTIME_PORT=port], each with the decimal form of
    the port.  Read line by line, blank lines aside, the document of a
    concrete port is the document of the sentinel with exactly these two
    lines added, next to each other, at one place. *)
Theorem port_lines_iff_port_set (cmd : string) (config : Config) (f : File) (w : World) :
  ∃ (pre post : string) (above below : list string),
    Text.nonblank (Text.lines (pre +:+ post)) = above ++ below ∧
    ∀ port : Z,
      generateDockerfile cmd (withPort port config) (Some f) w =
        (Returns None,
         appendTo (file_name f)
           (pre +:+
            (if bool_decide (port = -1) then ""
             else Text.nl +:+ "ENV DOCKER_LAMBDA_API_PORT=" +:+ Itoa port +:+
                  Text.nl +:+ "ENV DOCKER_LAMBDA_RUNTIME_PORT=" +:+ Itoa port +:+ Text.nl) +:+
            post) w) ∧
      (port ≠ -1 →
       Text.nonblank
         (Text.lines
            (pre +:+
             (Text.nl +:+ "ENV DOCKER_LAMBDA_API_PORT=" +:+ Itoa port +:+
              Text.nl +:+ "ENV DOCKER_LAMBDA_RUNTIME_PORT=" +:+ Itoa port +:+ Text.nl) +:+
             post)) =
         above ++
         [ "ENV DOCKER_LAMBDA_API_PORT=" +:+ Itoa port;
           "ENV DOCKER_LAMBDA_RUNTIME_PORT=" +:+ Itoa port ] ++
         below).
Proof.
  set (head := Text.nl +:+ "FROM " +:+ htmlEscaper (BuilderRunImage config)).
  set (tail := envSection (ImageEnv config) +:+ Text.nl +:+ cmdLine cmd +:+ copyLine).
  exists (head +:+ Text.nl), (Text.nl +:+ tail),
    (Text.nonblank (Text.lines head)), (Text.nonblank (Text.lines tail)).
  split; [apply (no_port_block_lines head tail)|].
  intros port. split.
  - rewrite generateDockerfile_writes.
    unfold dockerfileText, fromLine, portSection, portLines, head, tail.
    cbn [Port withPort BuilderRunImage ImageEnv].
    by rewrite !Text.app_assoc.
  - intros _. apply (port_block_lines head tail port).
Qed.

(** C7.  The rendered text is a function of the handler and of three
    fields of the configuration (run image, port, runtime environment):
    two runs that agree on them write the same bytes, whatever the rest of
    the configuration and the state of the machine.  The runtime
    environment entries are rendered one line each, in the order of
    [config.ImageEnv]. *)
Theorem generateDockerfile_deterministic
    (cmd : string) (c1 c2 : Config) (f : File) (w1 w2 : World) :
  BuilderRunImage c1 = BuilderRunImage c2 →
  Port c1 = Port c2 →
  ImageEnv c1 = ImageEnv c2 →
  ∃ text : string,
    generateDockerfile cmd c1 (Some f) w1 = (Returns None, appendTo (file_name f) text w1) ∧
    generateDockerfile cmd c2 (Some f) w2 = (Returns None, appendTo (file_name f) text w2) ∧
    text =
      fromLine (BuilderRunImage c1) +:+ portSection (Port c1) +:+ Text.nl +:+
      Text.join (map (λ entry, Text.nl +:+ "ENV " +:+ htmlEscaper entry +:+ Text.nl)
                     (ImageEnv c1)) +:+
      Text.nl +:+ cmdLine cmd +:+ copyLine.
Proof.
  intros Himg Hport Henv. exists (dockerfileText cmd c1).
  rewrite !generateDockerfile_writes. unfold dockerfileText.
  by rewrite Himg, Hport, Henv.
Qed.

Lemma generateDockerfile_deterministic_witness :
  ∃ text : string,
    generateDockerfile "bootstrap" (withImageEnv ["A=1"; "B=2"] exampleConfig)
      (Some scratchFile) emptyWorld =
      (Returns None, appendTo "/tmp/lambda-builder42" text emptyWorld) ∧
    generateDockerfile "bootstrap" (withImageEnv ["A=1"; "B=2"] exampleConfig)
      (Some scratchFile) (mkWorld ∅ ["noise"] [CallMkdirTemp]) =
      (Returns None,
       appendTo "/tmp/lambda-builder42" text (mkWorld ∅ ["noise"] [CallMkdirTemp])) ∧
    text =
      fromLine "lambci/lambda:go1.x" +:+ portSection (-1) +:+ Text.nl +:+
      Text.join [Text.nl +:+ "ENV A=1" +:+ Text.nl; Text.nl +:+ "ENV B=2" +:+ Text.nl] +:+
      Text.nl +:+ cmdLine "bootstrap" +:+ copyLine.
Proof.
  apply (generateDockerfile_deterministic "bootstrap"
           (withImageEnv ["A=1"; "B=2"] exampleConfig)
           (withImageEnv ["A=1"; "B=2"] exampleConfig)
           scratchFile emptyWorld (mkWorld ∅ ["noise"] [CallMkdirTemp]));
    reflexivity.
Defined.

(** C10.  Every value that the template prints goes through the HTML
    escaper of [html/template]: the run image, the port, each runtime
    environment entry and the handler appear in the document in escaped
    form.  For the handler [a&b<c] the document holds [a&amp;b&lt;c] and
    does not hold the handler as it was given. *)
Theorem interpolated_values_are_html_escaped :
  (∀ (cmd : string) (config : Config) (f : File) (w : World),
     generateDockerfile cmd config (Some f) w =
       (Returns None,
        appendTo (file_name f)
          (Text.nl +:+ "FROM " +:+ htmlEscaper (BuilderRunImage config) +:+ Text.nl +:+
           (if bool_decide (Port config = -1) then ""
            else Text.nl +:+ "ENV DOCKER_LAMBDA_API_PORT=" +:+
                   htmlEscaper (Itoa (Port config)) +:+
                 Text.nl +:+ "ENV DOCKER_LAMBDA_RUNTIME_PORT=" +:+
                   htmlEscaper (Itoa (Port config)) +:+ Text.nl) +:+
           Text.nl +:+
           Text.join (map (λ entry, Text.nl +:+ "ENV " +:+ htmlEscaper entry +:+ Text.nl)
                          (ImageEnv config)) +:+
           Text.nl +:+
           Text.nl +:+ "CMD [" +:+ Text.dquote +:+ htmlEscaper cmd +:+ Text.dquote +:+ "]" +:+
           Text.nl +:+
           Text.nl +:+ "COPY . /var/task" +:+ Text.nl) w)) ∧
  htmlEscaper "a&b<c" = "a&amp;b&lt;c" ∧
  (∃ text : string,
     generateDockerfile "a&b<c" exampleConfig (Some scratchFile) emptyWorld =
       (Returns None, appendTo "/tmp/lambda-builder42" text emptyWorld) ∧
     Text.contains text "a&amp;b&lt;c" ∧
     ¬ Text.contains text "a&b<c").
Proof.
  split; [|split; [done|]].
  - intros cmd config f w. rewrite generateDockerfile_writes. do 2 f_equal.
    unfold dockerfileText, fromLine, portSection, portLines, cmdLine, copyLine, envSection.
    rewrite htmlEscaper_Itoa. by rewrite !Text.app_assoc.
  - exists (dockerfileText "a&b<c" exampleConfig).
    split; [apply generateDockerfile_writes|]. split.
    + apply Text.containsb_spec. by vm_compute.
    + rewrite <- Text.containsb_spec. by vm_compute.
Qed.

(** * The sandbox run *)

Lemma exit_code_message_inj (prefix : string) (c1 c2 : Z) :
  prefix +:+ Itoa c1 = prefix +:+ Itoa c2 → c1 = c2.
Proof. intros Heq. by apply Itoa_inj, (inj (String.app prefix)). Qed.

Lemma executeBuildContainer_run (H : Host) (script : string) (config : Config) (w : World) :
  executeBuildContainer H script config w =
    let task := sandboxTask script config in
    let '(r, fs') := host_Execute H task (files w) in
    (Returns
       match r with
       | inl err => Some ("error executing builder: " +:+ err)
       | inr res =>
           if bool_decide (ExitCode res ≠ 0)
           then Some ("error executing builder, exit code " +:+ Itoa (ExitCode res))
           else None
       end,
     mkWorld fs' (stdout w) (calls w ++ [CallExecute task])).
Proof.
  unfold executeBuildContainer, ExecTask_Execute. run. simpl.
  destruct (host_Execute H _ _) as [[err|res] fs']; run; simpl; [done|].
  by case_bool_decide.
Qed.

(** C5.  When the sandbox cannot be launched, or exits with a code other
    than zero, [executeBuildContainer] returns an error, [executeBuilder]
    returns that same error, and the only call made is the sandbox run:
    no scratch directory, no extraction, no Procfile, no image build.
    For a non-zero exit the message ends in the decimal form of the exit
    code, and no other code gives that message. *)
Theorem sandbox_failure_aborts (H : Host) (script : string) (config : Config) (w : World)
    (r : error + ExecResult) (fs' : gmap string string) :
  host_Execute H (sandboxTask script config) (files w) = (r, fs') →
  (∀ res, r = inr res → ExitCode res ≠ 0) →
  ∃ e : error,
    executeBuildContainer H script config w =
      (Returns (Some e),
       mkWorld fs' (stdout w) (calls w ++ [CallExecute (sandboxTask script config)])) ∧
    executeBuilder H script config w =
      (Returns (Some e),
       mkWorld fs' (stdout w) (calls w ++ [CallExecute (sandboxTask script config)])) ∧
    match r with
    | inl cause => e = "error executing builder: " +:+ cause
    | inr res =>
        e = "error executing builder, exit code " +:+ Itoa (ExitCode res) ∧
        ∀ code : Z,
          e = "error executing builder, exit code " +:+ Itoa code → code = ExitCode res
    end.
Proof.
  intros Hexec Hfail.
  assert (∃ e, executeBuildContainer H script config w =
      (Returns (Some e),
       mkWorld fs' (stdout w) (calls w ++ [CallExecute (sandboxTask script config)])) ∧
      match r with
      | inl cause => e = "error executing builder: " +:+ cause
      | inr res =>
          e = "error executing builder, exit code " +:+ Itoa (ExitCode res) ∧
          ∀ code : Z,
            e = "error executing builder, exit code " +:+ Itoa code → code = ExitCode res
      end) as (e & Hrun & He).
  { rewrite executeBuildContainer_run. cbn zeta. rewrite Hexec.
    destruct r as [cause|res]; [by eexists|].
    specialize (Hfail res eq_refl). rewrite bool_decide_eq_true_2 by done.
    eexists. split; [done|]. split; [done|].
    intros code Hcode. symmetry. by eapply exit_code_message_inj. }
  exists e. split; [done|]. split; [|done].
  unfold executeBuilder, bind. by rewrite Hrun.
Qed.

Definition failingHost (code : Z) : Host := {|
  host_Execute := λ _ fs, (inr (mkExecResult code), fs);
  host_MkdirTemp := λ _, inr "/tmp/lambda-builder1";
  host_TempFile := λ _, inr "/tmp/lambda-builder2";
  host_openFault := λ _, None;
  host_readFault := λ _, None;
  host_writeFault := λ _, None;
  host_extractZip := λ _ _ fs, (None, fs);
  host_yamlUnmarshal := λ _, (zeroLambdaYML, None);
  host_detectHandler := λ _ _ _, ""
|}.

Lemma sandbox_failure_aborts_witness :
  ∃ e : error,
    executeBuildContainer (failingHost 2) "make" exampleConfig emptyWorld =
      (Returns (Some e),
       mkWorld ∅ [] [CallExecute (sandboxTask "make" exampleConfig)]) ∧
    executeBuilder (failingHost 2) "make" exampleConfig emptyWorld =
      (Returns (Some e),
       mkWorld ∅ [] [CallExecute (sandboxTask "make" exampleConfig)]) ∧
    e = "error executing builder, exit code 2" ∧
    ∀ code : Z, e = "error executing builder, exit code " +:+ Itoa code → code = 2.
Proof.
  apply (sandbox_failure_aborts (failingHost 2) "make" exampleConfig emptyWorld
           (inr (mkExecResult 2)) ∅).
  - reflexivity.
  - intros res [= <-]. simpl. lia.
Defined.

(** * The project override document *)

Lemma FileExistsInDirectory_run (directory filename : string) (w : World) :
  FileExistsInDirectory directory filename w =
    (Returns (bool_decide (is_Some (files w !! filepath.Join directory filename))), w).
Proof. done. Qed.

Lemma ParseLambdaYML_absent (H : Host) (config : Config) (w : World) :
  files w !! filepath.Join (WorkingDirectory config) "lambda.yml" = None →
  ParseLambdaYML H config w = (Returns (zeroLambdaYML, None), w).
Proof.
  intros Hnone. unfold ParseLambdaYML, bind. rewrite FileExistsInDirectory_run, Hnone.
  rewrite bool_decide_eq_false_2; [done|]. by intros [? ?].
Qed.

Lemma ParseLambdaYML_present (H : Host) (config : Config) (w : World) (content : string) :
  files w !! filepath.Join (WorkingDirectory config) "lambda.yml" = Some content →
  host_openFault H (filepath.Join (WorkingDirectory config) "lambda.yml") = None →
  host_readFault H (filepath.Join (WorkingDirectory config) "lambda.yml") = None →
  ParseLambdaYML H config w =
    (Returns
       ((host_yamlUnmarshal H content).1,
        (λ e, "error unmarshaling lambda.yml: " +:+ e) <$> (host_yamlUnmarshal H content).2),
     w).
Proof.
  intros Hsome Hopen Hread. unfold ParseLambdaYML, bind.
  rewrite FileExistsInDirectory_run, Hsome, bool_decide_eq_true_2 by done.
  unfold os_Open, ioutil_ReadAll. run. rewrite Hsome, Hopen. cbn. rewrite Hsome, Hread.
  cbn [default id]. destruct (host_yamlUnmarshal H content) as [yml [e|]]; done.
Qed.

(** C6.  Without a [lambda.yml] in the working directory
    [ParseLambdaYML] returns the zero document and no error, and leaves the
    machine as it was.  With a [lambda.yml] that cannot be opened, cannot
    be read to its end, or that [yaml.Unmarshal] rejects, it returns an
    error. *)
Theorem ParseLambdaYML_absence_is_not_an_error (H : Host) (config : Config) (w : World) :
  (files w !! filepath.Join (WorkingDirectory config) "lambda.yml" = None →
   ParseLambdaYML H config w = (Returns (zeroLambdaYML, None), w)) ∧
  (∀ content : string,
     files w !! filepath.Join (WorkingDirectory config) "lambda.yml" = Some content →
     is_Some (host_openFault H (filepath.Join (WorkingDirectory config) "lambda.yml")) ∨
     is_Some (host_readFault H (filepath.Join (WorkingDirectory config) "lambda.yml")) ∨
     is_Some (host_yamlUnmarshal H content).2 →
     ∃ (yml : LambdaYML) (e : error),
       ParseLambdaYML H config w = (Returns (yml, Some e), w)).
Proof.
  split; [apply ParseLambdaYML_absent|].
  intros content Hsome Hbad.
  destruct (host_openFault H (filepath.Join (WorkingDirectory config) "lambda.yml"))
    as [eo|] eqn:Hopen.
  { unfold ParseLambdaYML, bind.
    rewrite FileExistsInDirectory_run, Hsome, bool_decide_eq_true_2 by done.
    unfold os_Open. run. rewrite Hsome, Hopen. by eexists _, _. }
  destruct (host_readFault H (filepath.Join (WorkingDirectory config) "lambda.yml"))
    as [[n er]|] eqn:Hread.
  { unfold ParseLambdaYML, bind.
    rewrite FileExistsInDirectory_run, Hsome, bool_decide_eq_true_2 by done.
    unfold os_Open, ioutil_ReadAll. run. rewrite Hsome, Hopen. cbn. rewrite Hread.
    by eexists _, _. }
  destruct Hbad as [[? [=]]|[[? [=]]|[e He]]].
  rewrite (ParseLambdaYML_present H config w content) by done.
  rewrite He. by eexists _, _.
Qed.

(** A host whose YAML decoder accepts two documents and rejects the rest. *)
Definition yamlHost : Host := {|
  host_Execute := λ _ fs, (inr (mkExecResult 0), fs);
  host_MkdirTemp := λ _, inr "/tmp/lambda-builder1";
  host_TempFile := λ _, inr "/tmp/lambda-builder2";
  host_openFault := λ _, None;
  host_readFault := λ _, None;
  host_writeFault := λ _, None;
  host_extractZip := λ _ _ fs, (None, fs);
  host_yamlUnmarshal := λ bytes,
    if bool_decide (bytes = "build_image: custom/python-build")
    then (mkLambdaYML "" "custom/python-build" "", None)
    else if bool_decide (bytes = "run_image: custom/python-run")
    then (mkLambdaYML "" "" "custom/python-run", None)
    else (zeroLambdaYML, Some "yaml: did not find expected key");
  host_detectHandler := λ _ _ _, ""
|}.

Lemma ParseLambdaYML_absence_is_not_an_error_witness :
  ParseLambdaYML yamlHost exampleConfig emptyWorld = (Returns (zeroLambdaYML, None), emptyWorld) ∧
  ∃ (yml : LambdaYML) (e : error),
    ParseLambdaYML yamlHost exampleConfig (mkWorld {[ "/app/lambda.yml" := "builder: [" ]} [] []) =
      (Returns (yml, Some e), mkWorld {[ "/app/lambda.yml" := "builder: [" ]} [] []).
Proof.
  split.
  - apply (proj1 (ParseLambdaYML_absence_is_not_an_error yamlHost exampleConfig emptyWorld)).
    reflexivity.
  - apply (proj2 (ParseLambdaYML_absence_is_not_an_error yamlHost exampleConfig
                    (mkWorld {[ "/app/lambda.yml" := "builder: [" ]} [] []))
             "builder: [").
    + reflexivity.
    + right. right. vm_compute. eexists. reflexivity.
Defined.

(** * Build image and run image *)

(** C3.  The explicit value of the configuration wins when it is not
    empty, whatever [lambda.yml] holds (the document is not even read).
    Otherwise, for the document [yml] that [ParseLambdaYML] returns, the
    field of the document wins when it is not empty, and the supplied
    default is returned when it is.  This holds for the build image and
    for the run image, whether the default is empty or not. *)
Theorem image_precedence (H : Host) (config : Config) (defaultImage : string) (w : World) :
  (BuilderBuildImage config ≠ "" →
   getBuildImage H config defaultImage w = (Returns (BuilderBuildImage config, None), w)) ∧
  (BuilderRunImage config ≠ "" →
   getRunImage H config defaultImage w = (Returns (BuilderRunImage config, None), w)) ∧
  (∀ yml : LambdaYML,
     ParseLambdaYML H config w = (Returns (yml, None), w) →
     (BuilderBuildImage config = "" →
      getBuildImage H config defaultImage w =
        (Returns (if bool_decide (yml_BuildImage yml ≠ "")
                  then yml_BuildImage yml else defaultImage, None), w)) ∧
     (BuilderRunImage config = "" →
      getRunImage H config defaultImage w =
        (Returns (if bool_decide (yml_RunImage yml ≠ "")
                  then yml_RunImage yml else defaultImage, None), w))).
Proof.
  split; [|split].
  - intros Hne. unfold getBuildImage. by rewrite bool_decide_eq_true_2.
  - intros Hne. unfold getRunImage. by rewrite bool_decide_eq_true_2.
  - intros yml Hparse. split; intros Hempty.
    + unfold getBuildImage, bind. rewrite bool_decide_eq_false_2 by (by intros []).
      rewrite Hparse. by repeat case_bool_decide.
    + unfold getRunImage, bind. rewrite bool_decide_eq_false_2 by (by intros []).
      rewrite Hparse. by repeat case_bool_decide.
Qed.

Definition withImages (buildImage runImage : string) (c : Config) : Config :=
  mkConfig (BuildEnv c) (Builder c) buildImage runImage
    (GenerateRunImage c) (Handler c) (HandlerMap c) (Identifier c) (ImageEnv c)
    (ImageLabels c) (ImageTag c) (Port c) (RunQuiet c) (WorkingDirectory c) (WriteProcfile c).

Definition overrideWorld : World :=
  mkWorld {[ "/app/lambda.yml" := "build_image: custom/python-build" ]} [] [].

Lemma image_precedence_witness :
  getBuildImage yamlHost (withImages "explicit/build" "" exampleConfig)
    "mlupin/docker-lambda:python3.9-build" overrideWorld =
    (Returns ("explicit/build", None), overrideWorld) ∧
  getBuildImage yamlHost (withImages "" "" exampleConfig)
    "mlupin/docker-lambda:python3.9-build" overrideWorld =
    (Returns ("custom/python-build", None), overrideWorld) ∧
  getRunImage yamlHost (withImages "" "" exampleConfig)
    "mlupin/docker-lambda:python3.9" overrideWorld =
    (Returns ("mlupin/docker-lambda:python3.9", None), overrideWorld).
Proof.
  split; [|split].
  - apply (proj1 (image_precedence yamlHost (withImages "explicit/build" "" exampleConfig)
                    "mlupin/docker-lambda:python3.9-build" overrideWorld)).
    simpl. discriminate.
  - apply (proj1 (proj2 (proj2 (image_precedence yamlHost (withImages "" "" exampleConfig)
                    "mlupin/docker-lambda:python3.9-build" overrideWorld))
                    (mkLambdaYML "" "custom/python-build" "") eq_refl)).
    reflexivity.
  - apply (proj2 (proj2 (proj2 (image_precedence yamlHost (withImages "" "" exampleConfig)
                    "mlupin/docker-lambda:python3.9" overrideWorld))
                    (mkLambdaYML "" "custom/python-build" "") eq_refl)).
    reflexivity.
Defined.

(** * The pipeline after the sandbox run *)

(** The bytes that [ioutil.ReadFile] hands over; [executeBuilder] drops
    the error that comes with them. *)
Definition archiveBytes (H : Host) (fs : gmap string string) (path : string) : string :=
  match fs !! path with
  | None => ""
  | Some content =>
      match host_openFault H path with
      | Some _ => ""
      | None =>
          match host_readFault H path with
          | Some (n, _) => String.substring 0 n content
          | None => content
          end
      end
  end.

Lemma ioutil_ReadFile_run (H : Host) (path : string) (w : World) :
  ∃ err : option error,
    ioutil_ReadFile H path w = (Returns (archiveBytes H (files w) path, err), w).
Proof.
  unfold ioutil_ReadFile, os_Open, ioutil_ReadAll, archiveBytes. run.
  destruct (files w !! path) as [content|] eqn:Hfile; [|by eexists].
  destruct (host_openFault H path) as [eo|]; [by eexists|].
  run. cbn [file_name]. rewrite Hfile.
  destruct (host_readFault H path) as [[n er]|]; by eexists.
Qed.

(** The world when the deferred [os.RemoveAll] has run. *)
Definition removeAll (dir : string) (w : World) : World :=
  mkWorld (filter (λ kv, under dir kv.1 = false) (files w))
          (stdout w) (calls w ++ [CallRemoveAll dir]).

Lemma os_RemoveAll_run (dir : string) (w : World) :
  os_RemoveAll dir w = (Returns (), removeAll dir w).
Proof. done. Qed.

(** The world in which the extraction starts: the sandbox has run and
    left the files [fs1], the scratch directory exists, the progress line
    is printed. *)
Definition beforeExtract (script : string) (config : Config) (w : World)
    (fs1 : gmap string string) : World :=
  mkWorld fs1
    (stdout w ++ ["-----> Extracting lambda.zip into build context dir" +:+ Text.nl])
    (calls w ++ [CallExecute (sandboxTask script config)] ++ [CallMkdirTemp]).

(** The rest of [executeBuilder] once the archive is extracted. *)
Definition afterExtract (H : Host) (config : Config) (dir : string) : M (option error) :=
  bind (getFunctionHandler H dir config) (λ handler,
  bind (procfileStep H handler config dir) (λ err,
    match err with
    | Some e => ret (Some e)
    | None => imageStep H handler config dir
    end)).

Lemma executeBuilder_run (H : Host) (script : string) (config : Config) (w : World)
    (fs1 : gmap string string) (dir : string) :
  host_Execute H (sandboxTask script config) (files w) = (inr (mkExecResult 0), fs1) →
  host_MkdirTemp H fs1 = inr dir →
  executeBuilder H script config w =
    defer (os_RemoveAll dir)
      (bind (extract_Zip H
               (archiveBytes H fs1 (filepath.Join (WorkingDirectory config) "lambda.zip")) dir)
         (λ err,
            match err with
            | Some e =>
                ret (Some ("error extracting lambda.zip into build context dir: " +:+ e))
            | None => afterExtract H config dir
            end))
      (beforeExtract script config w fs1).
Proof.
  intros Hexec Hmk. unfold executeBuilder.
  unfold bind at 1. rewrite executeBuildContainer_run. cbn zeta. rewrite Hexec.
  rewrite bool_decide_eq_false_2 by (simpl; lia).
  unfold os_MkdirTemp. run. rewrite Hmk.
  unfold defer, beforeExtract. run.
  destruct (ioutil_ReadFile_run H (filepath.Join (WorkingDirectory config) "lambda.zip")
              (mkWorld fs1
                 (stdout w ++ ["-----> Extracting lambda.zip into build context dir" +:+ Text.nl])
                 ((calls w ++ [CallExecute (sandboxTask script config)]) ++ [CallMkdirTemp])))
    as [err Hread].
  rewrite Hread. cbn [fst files]. rewrite <- (assoc_L (++)). done.
Qed.

Lemma failed_extraction_aborts (H : Host) (script : string) (config : Config) (w : World)
    (fs1 fs2 : gmap string string) (dir : string) (e : error) :
  host_Execute H (sandboxTask script config) (files w) = (inr (mkExecResult 0), fs1) →
  host_MkdirTemp H fs1 = inr dir →
  host_extractZip H
    (archiveBytes H fs1 (filepath.Join (WorkingDirectory config) "lambda.zip")) dir fs1 =
    (Some e, fs2) →
  executeBuilder H script config w =
    (Returns (Some ("error extracting lambda.zip into build context dir: " +:+ e)),
     mkWorld (filter (λ kv, under dir kv.1 = false) fs2)
       (stdout w ++ ["-----> Extracting lambda.zip into build context dir" +:+ Text.nl])
       (calls w ++ [CallExecute (sandboxTask script config); CallMkdirTemp;
                    CallExtract dir; CallRemoveAll dir])).
Proof.
  intros Hexec Hmk Hzip.
  rewrite (executeBuilder_run H script config w fs1 dir) by done.
  unfold defer, extract_Zip, beforeExtract. run. rewrite Hzip. run.
  rewrite os_RemoveAll_run. unfold removeAll. cbn [files stdout calls].
  by rewrite <- !(assoc_L (++)).
Qed.

Lemma archiveBytes_missing (H : Host) (fs : gmap string string) (path : string) :
  fs !! path = None ∨ is_Some (host_openFault H path) → archiveBytes H fs path = "".
Proof.
  unfold archiveBytes. intros [->|[eo ->]]; [done|]. by destruct (fs !! _).
Qed.

(** The archive codec rejects the empty buffer, wherever it is asked to
    extract it. *)
Definition rejectsEmpty (H : Host) : Prop :=
  ∀ (dest : string) (fs : gmap string string),
    ∃ (e : error) (fs' : gmap string string), host_extractZip H "" dest fs = (Some e, fs').

(** C8.  The sandbox has exited with code zero and the scratch directory
    exists.  [executeBuilder] reads [lambda.zip] and drops the error of the
    read, so a missing archive, or one that cannot be opened, reaches the
    codec as the empty buffer, which a zip codec rejects.  When the archive
    is missing or cannot be opened, or when the extraction of the bytes
    read fails (a corrupt archive, or one cut short by a read error),
    [executeBuilder] returns the extraction error around the cause.  After
    the failed extraction the only call is the deferred removal of the
    scratch directory: no Procfile is written, no temporary Dockerfile is
    made, no image is built, and nothing of a partial extraction is kept. *)
Theorem unusable_archive_aborts (H : Host) (script : string) (config : Config) (w : World)
    (fs1 : gmap string string) (dir : string) :
  host_Execute H (sandboxTask script config) (files w) = (inr (mkExecResult 0), fs1) →
  host_MkdirTemp H fs1 = inr dir →
  ((fs1 !! filepath.Join (WorkingDirectory config) "lambda.zip" = None ∨
    is_Some (host_openFault H (filepath.Join (WorkingDirectory config) "lambda.zip"))) ∧
   rejectsEmpty H) ∨
  (∃ (e : error) (fs2 : gmap string string),
     host_extractZip H
       (archiveBytes H fs1 (filepath.Join (WorkingDirectory config) "lambda.zip")) dir fs1 =
       (Some e, fs2)) →
  ∃ (e : error) (fs2 : gmap string string),
    executeBuilder H script config w =
      (Returns (Some ("error extracting lambda.zip into build context dir: " +:+ e)),
       mkWorld (filter (λ kv, under dir kv.1 = false) fs2)
         (stdout w ++ ["-----> Extracting lambda.zip into build context dir" +:+ Text.nl])
         (calls w ++ [CallExecute (sandboxTask script config); CallMkdirTemp;
                      CallExtract dir; CallRemoveAll dir])).
Proof.
  intros Hexec Hmk Hbad.
  assert (∃ e fs2, host_extractZip H
            (archiveBytes H fs1 (filepath.Join (WorkingDirectory config) "lambda.zip"))
            dir fs1 = (Some e, fs2)) as (e & fs2 & Hzip).
  { destruct Hbad as [[Hmissing Hrej]|Hzip]; [|done].
    rewrite archiveBytes_missing by done. apply Hrej. }
  exists e, fs2. by apply (failed_extraction_aborts H script config w fs1 fs2 dir e).
Qed.

(** A host on which everything works, with a codec that rejects the empty
    buffer and a sandbox that leaves no archive behind. *)
Definition noArchiveHost : Host := {|
  host_Execute := λ _ fs, (inr (mkExecResult 0), fs);
  host_MkdirTemp := λ _, inr "/tmp/lambda-builder1";
  host_TempFile := λ _, inr "/tmp/lambda-builder2";
  host_openFault := λ _, None;
  host_readFault := λ _, None;
  host_writeFault := λ _, None;
  host_extractZip := λ data dest fs,
    if bool_decide (data = "") then (Some "zip: not a valid zip file", fs)
    else (None, <[filepath.Join dest "bootstrap" := data]> fs);
  host_yamlUnmarshal := λ _, (zeroLambdaYML, None);
  host_detectHandler := λ _ _ _, "bootstrap"
|}.

Lemma unusable_archive_aborts_witness :
  ∃ (e : error) (fs2 : gmap string string),
    executeBuilder noArchiveHost "make" exampleConfig emptyWorld =
      (Returns (Some ("error extracting lambda.zip into build context dir: " +:+ e)),
       mkWorld (filter (λ kv, under "/tmp/lambda-builder1" kv.1 = false) fs2)
         ([] ++ ["-----> Extracting lambda.zip into build context dir" +:+ Text.nl])
         ([] ++ [CallExecute (sandboxTask "make" exampleConfig); CallMkdirTemp;
                 CallExtract "/tmp/lambda-builder1"; CallRemoveAll "/tmp/lambda-builder1"])).
Proof.
  apply (unusable_archive_aborts noArchiveHost "make" exampleConfig emptyWorld ∅
           "/tmp/lambda-builder1").
  - reflexivity.
  - reflexivity.
  - left. split.
    + left. reflexivity.
    + intros dest fs. exists "zip: not a valid zip file", fs. reflexivity.
Defined.

(** * The image step *)

(** The handler that [getFunctionHandler] resolves over the files [fs]. *)
Definition resolvedHandler (H : Host) (dir : string) (config : Config)
    (fs : gmap string string) : string :=
  if bool_decide (Handler config ≠ "") then Handler config
  else host_detectHandler H dir config fs.

Lemma getFunctionHandler_run (H : Host) (dir : string) (config : Config) (w : World) :
  getFunctionHandler H dir config w =
    (Returns (resolvedHandler H dir config (files w)), w).
Proof. unfold getFunctionHandler, resolvedHandler. by destruct (bool_decide _). Qed.

(** The world once the archive is extracted into [dir], leaving the
    files [fs2]. *)
Definition extracted (script : string) (config : Config) (w : World)
    (fs2 : gmap string string) (dir : string) : World :=
  mkWorld fs2
    (stdout w ++ ["-----> Extracting lambda.zip into build context dir" +:+ Text.nl])
    (calls w ++ [CallExecute (sandboxTask script config); CallMkdirTemp; CallExtract dir]).

(** C9, the code on the failing executions.  The sandbox has succeeded,
    the archive is extracted, the Procfile step has returned [nil] and a
    run image is asked for.  When [ioutil.TempFile] fails it returns a
    [nil] file; the clean-up deferred on the line before the error check
    calls [Name] on that [nil] file when [executeBuilder] returns, and the
    function panics instead of returning the error. *)
Theorem tempfile_failure_panics (H : Host) (script : string) (config : Config) (w w2 : World)
    (fs1 fs2 : gmap string string) (dir : string) (e : error) :
  host_Execute H (sandboxTask script config) (files w) = (inr (mkExecResult 0), fs1) →
  host_MkdirTemp H fs1 = inr dir →
  host_extractZip H
    (archiveBytes H fs1 (filepath.Join (WorkingDirectory config) "lambda.zip")) dir fs1 =
    (None, fs2) →
  procfileStep H (resolvedHandler H dir config fs2) config dir
    (extracted script config w fs2 dir) = (Returns None, w2) →
  GenerateRunImage config = true →
  host_TempFile H (files w2) = inl e →
  ∃ w' : World,
    executeBuilder H script config w =
      (Panics "runtime error: invalid memory address or nil pointer dereference", w') ∧
    calls w' = calls w2 ++ [CallTempFile; CallRemoveAll dir].
Proof.
  intros Hexec Hmk Hzip Hproc Hgen Htmp.
  rewrite (executeBuilder_run H script config w fs1 dir) by done.
  unfold defer, extract_Zip, beforeExtract. run. rewrite Hzip. run.
  unfold afterExtract. unfold bind at 1. rewrite getFunctionHandler_run. cbn [files].
  unfold bind at 1. unfold extracted in Hproc. rewrite <- !(assoc_L (++)). cbn [app].
  rewrite Hproc. unfold imageStep. rewrite Hgen.
  unfold ioutil_TempFile. run. rewrite Htmp. run.
  unfold defer, File_Name. run. rewrite os_RemoveAll_run.
  eexists. split; [done|]. cbn [removeAll calls]. by rewrite <- !(assoc_L (++)).
Qed.

Definition noTempHost : Host := {|
  host_Execute := λ _ fs, (inr (mkExecResult 0), <["/app/lambda.zip" := "PK"]> fs);
  host_MkdirTemp := λ _, inr "/tmp/lambda-builder1";
  host_TempFile := λ _, inl "open /tmp/lambda-builder2: no space left on device";
  host_openFault := λ _, None;
  host_readFault := λ _, None;
  host_writeFault := λ _, None;
  host_extractZip := λ data dest fs,
    if bool_decide (data = "") then (Some "zip: not a valid zip file", fs)
    else (None, <[filepath.Join dest "bootstrap" := data]> fs);
  host_yamlUnmarshal := λ _, (zeroLambdaYML, None);
  host_detectHandler := λ _ _ _, "bootstrap"
|}.

Definition imageOnlyConfig : Config :=
  mkConfig [] "" "lambci/lambda:build-go1.x" "lambci/lambda:go1.x" true "" ∅
    "1a2b" [] [] "" (-1) false "/app" false.

Lemma tempfile_failure_panics_witness :
  ∃ w' : World,
    executeBuilder noTempHost "make" imageOnlyConfig emptyWorld =
      (Panics "runtime error: invalid memory address or nil pointer dereference", w') ∧
    calls w' =
      calls (extracted "make" imageOnlyConfig emptyWorld
               (<["/tmp/lambda-builder1/bootstrap" := "PK"]> (<["/app/lambda.zip" := "PK"]> ∅))
               "/tmp/lambda-builder1") ++
      [CallTempFile; CallRemoveAll "/tmp/lambda-builder1"].
Proof.
  apply (tempfile_failure_panics noTempHost "make" imageOnlyConfig emptyWorld
           (extracted "make" imageOnlyConfig emptyWorld
              (<["/tmp/lambda-builder1/bootstrap" := "PK"]> (<["/app/lambda.zip" := "PK"]> ∅))
              "/tmp/lambda-builder1")
           (<["/app/lambda.zip" := "PK"]> ∅)
           (<["/tmp/lambda-builder1/bootstrap" := "PK"]> (<["/app/lambda.zip" := "PK"]> ∅))
           "/tmp/lambda-builder1" "open /tmp/lambda-builder2: no space left on device");
    reflexivity.
Defined.

(** The same on a configuration that also writes the Procfile: the two
    Procfile writes are made, then the pipeline panics. *)
Example tempfile_failure_after_procfile :
  (executeBuilder noTempHost "make" exampleConfig emptyWorld).1 =
    Panics "runtime error: invalid memory address or nil pointer dereference".
Proof. by vm_compute. Qed.

(** * The Procfile step *)

(** A step is a no-op when it returns [nil], makes no call and leaves
    every file as it was (it may print). *)
Definition noop (m : M (option error)) (w : World) : Prop :=
  ∃ w' : World, m w = (Returns None, w') ∧ files w' = files w ∧ calls w' = calls w.

Lemma procfileStep_run (H : Host) (handler : string) (config : Config) (dir : string)
    (w : World) :
  procfileStep H handler config dir w =
    if WriteProcfile config &&
       negb (bool_decide (is_Some (files w !! filepath.Join dir "Procfile")))
    then writeProcfiles H handler config dir w
    else (Returns None, w).
Proof.
  unfold procfileStep, bind at 1. destruct (WriteProcfile config); [|done].
  unfold bind at 1. rewrite FileExistsInDirectory_run. run.
  by destruct (bool_decide _).
Qed.

Lemma procfileStep_idle (H : Host) (handler : string) (config : Config) (dir : string)
    (w : World) :
  WriteProcfile config = false ∨ handler = "" ∨
    is_Some (files w !! filepath.Join dir "Procfile") →
  noop (procfileStep H handler config dir) w.
Proof.
  intros Hidle. unfold noop. rewrite procfileStep_run.
  destruct (WriteProcfile config); [|by eexists].
  case_bool_decide as Hpresent; cbn [andb negb]; [by eexists|].
  destruct Hidle as [?|[->|?]]; [done| |done].
  unfold writeProcfiles. rewrite bool_decide_eq_true_2 by done. run. by eexists.
Qed.

Lemma procfileStep_active (H : Host) (handler : string) (config : Config) (dir : string)
    (w : World) :
  WriteProcfile config = true → handler ≠ "" →
  files w !! filepath.Join dir "Procfile" = None →
  ∃ (r : option error) (w' : World) (rest : list Call),
    procfileStep H handler config dir w = (Returns r, w') ∧
    calls w' = calls w ++ CallWriteProcfile handler (WorkingDirectory config) :: rest.
Proof.
  intros Hwp Hh Habsent. rewrite procfileStep_run, Hwp, Habsent.
  rewrite bool_decide_eq_false_2 by (by intros [? ?]). cbn [andb negb].
  unfold writeProcfiles. rewrite bool_decide_eq_false_2 by done.
  unfold writeProcfile. run.
  destruct (host_writeFault H (filepath.Join (WorkingDirectory config) "Procfile")); run;
    [by eexists _, _, _|].
  destruct (host_writeFault H (filepath.Join dir "Procfile")); run.
  - eexists _, _, _. split; [done|]. cbn [calls]. by rewrite <- (assoc_L (++)).
  - eexists _, _, _. split; [done|]. cbn [calls]. by rewrite <- (assoc_L (++)).
Qed.

Lemma procfileStep_writes (H : Host) (handler : string) (config : Config) (dir : string)
    (w : World) :
  WriteProcfile config = true → handler ≠ "" →
  files w !! filepath.Join dir "Procfile" = None →
  host_writeFault H (filepath.Join (WorkingDirectory config) "Procfile") = None →
  host_writeFault H (filepath.Join dir "Procfile") = None →
  ∃ w' : World,
    procfileStep H handler config dir w = (Returns None, w') ∧
    files w' =
      <[filepath.Join dir "Procfile" := procfileLine handler]>
        (<[filepath.Join (WorkingDirectory config) "Procfile" := procfileLine handler]>
           (files w)) ∧
    calls w' =
      calls w ++ [CallWriteProcfile handler (WorkingDirectory config);
                  CallWriteProcfile handler dir].
Proof.
  intros Hwp Hh Habsent Hw1 Hw2. rewrite procfileStep_run, Hwp, Habsent.
  rewrite bool_decide_eq_false_2 by (by intros [? ?]). cbn [andb negb].
  unfold writeProcfiles. rewrite bool_decide_eq_false_2 by done.
  unfold writeProcfile. run. rewrite Hw1. run. rewrite Hw2. run.
  eexists. split; [done|]. split; [done|]. cbn [calls]. by rewrite <- (assoc_L (++)).
Qed.

(** C2, as the code has it.  The step looks for a [Procfile] in the
    extracted build directory, not in the working directory.  It is a
    no-op when writing is switched off, when the handler is empty, or when
    the build directory already holds a [Procfile]; with writing switched
    on and a non-empty handler it is a no-op exactly when the build
    directory holds a [Procfile].  Otherwise, when both writes succeed, it
    writes the same declaration line to the [Procfile] of the working
    directory and to that of the build directory, in this order. *)
Theorem procfileStep_checks_build_directory (H : Host) (handler : string) (config : Config)
    (dir : string) (w : World) :
  (WriteProcfile config = false ∨ handler = "" ∨
     is_Some (files w !! filepath.Join dir "Procfile") →
   noop (procfileStep H handler config dir) w) ∧
  (WriteProcfile config = true → handler ≠ "" →
   (noop (procfileStep H handler config dir) w ↔
    is_Some (files w !! filepath.Join dir "Procfile"))) ∧
  (WriteProcfile config = true → handler ≠ "" →
   files w !! filepath.Join dir "Procfile" = None →
   host_writeFault H (filepath.Join (WorkingDirectory config) "Procfile") = None →
   host_writeFault H (filepath.Join dir "Procfile") = None →
   ∃ w' : World,
     procfileStep H handler config dir w = (Returns None, w') ∧
     files w' =
       <[filepath.Join dir "Procfile" := procfileLine handler]>
         (<[filepath.Join (WorkingDirectory config) "Procfile" := procfileLine handler]>
            (files w)) ∧
     calls w' =
       calls w ++ [CallWriteProcfile handler (WorkingDirectory config);
                   CallWriteProcfile handler dir]).
Proof.
  split; [apply procfileStep_idle|]. split; [|apply procfileStep_writes].
  intros Hwp Hh. split.
  - intros (w' & Hrun & _ & Hcalls).
    destruct (files w !! filepath.Join dir "Procfile") as [old|] eqn:Hfile; [by eexists|].
    destruct (procfileStep_active H handler config dir w Hwp Hh Hfile)
      as (r & w'' & rest & Hrun' & Hcalls').
    rewrite Hrun in Hrun'. simplify_eq. rewrite Hcalls' in Hcalls.
    apply (f_equal length) in Hcalls. rewrite length_app in Hcalls. simpl in Hcalls. lia.
  - intros Hpresent. apply procfileStep_idle. auto.
Qed.

(** The working directory of [exampleConfig] holds a [Procfile] of the
    user; the extracted build directory holds none. *)
Definition userProcfileWorld : World :=
  mkWorld {[ "/app/Procfile" := "web: custom-entry" ]} [] [].

(** The extracted build directory holds a [Procfile]; the working
    directory holds none. *)
Definition archiveProcfileWorld : World :=
  mkWorld {[ "/tmp/lambda-builder1/Procfile" := "web: from-archive" ]} [] [].

Lemma procfileStep_checks_build_directory_witness :
  noop (procfileStep noArchiveHost "bootstrap" exampleConfig "/tmp/lambda-builder1")
    archiveProcfileWorld ∧
  ∃ w' : World,
    procfileStep noArchiveHost "bootstrap" exampleConfig "/tmp/lambda-builder1" emptyWorld =
      (Returns None, w') ∧
    files w' =
      <["/tmp/lambda-builder1/Procfile" := "web: bootstrap"]>
        (<["/app/Procfile" := "web: bootstrap"]> ∅) ∧
    calls w' =
      [] ++ [CallWriteProcfile "bootstrap" "/app";
             CallWriteProcfile "bootstrap" "/tmp/lambda-builder1"].
Proof.
  split.
  - apply (proj1 (procfileStep_checks_build_directory noArchiveHost "bootstrap"
                    exampleConfig "/tmp/lambda-builder1" archiveProcfileWorld)).
    right. right. vm_compute. eexists. reflexivity.
  - apply (proj2 (proj2 (procfileStep_checks_build_directory noArchiveHost "bootstrap"
                    exampleConfig "/tmp/lambda-builder1" emptyWorld))); reflexivity || discriminate.
Defined.

(** C2 as the claim states it fails.  Writing is switched on and the
    handler is not empty.  With a [Procfile] in the working directory and
    none in the build directory the step is not a no-op: it replaces the
    file of the working directory.  With a [Procfile] in the build
    directory and none in the working directory the step is a no-op. *)
Lemma procfileStep_ignores_working_directory :
  WriteProcfile exampleConfig = true ∧
  "bootstrap" ≠ "" ∧
  (is_Some (files userProcfileWorld !!
              filepath.Join (WorkingDirectory exampleConfig) "Procfile") ∧
   ¬ noop (procfileStep noArchiveHost "bootstrap" exampleConfig "/tmp/lambda-builder1")
       userProcfileWorld ∧
   (procfileStep noArchiveHost "bootstrap" exampleConfig "/tmp/lambda-builder1"
      userProcfileWorld).2.(files) !! "/app/Procfile" = Some "web: bootstrap") ∧
  (files archiveProcfileWorld !!
     filepath.Join (WorkingDirectory exampleConfig) "Procfile" = None ∧
   noop (procfileStep noArchiveHost "bootstrap" exampleConfig "/tmp/lambda-builder1")
     archiveProcfileWorld).
Proof.
  split; [done|]. split; [done|]. split; [split; [|split]|split].
  - vm_compute. by eexists.
  - intros (w' & Hrun & _ & Hcalls). vm_compute in Hrun.
    injection Hrun as <-. vm_compute in Hcalls. discriminate.
  - by vm_compute.
  - by vm_compute.
  - apply procfileStep_idle. right. right. vm_compute. by eexists.
Qed.

(** * Further properties of the generator *)

(** The bytes that the HTML escaper rewrites. *)
Definition specialBytes : list ascii :=
  [ "000"; "034"; "&"; "'"; "+"; "<"; ">" ]%char.

(** [c] occurs in [s]. *)
Fixpoint occurs (c : ascii) (s : string) : bool :=
  match s with
  | "" => false
  | String a s' => bool_decide (a = c) || occurs c s'
  end.

(** No byte of [s] is rewritten by the escaper. *)
Fixpoint plain (s : string) : bool :=
  match s with
  | "" => true
  | String a s' => bool_decide (a ∉ specialBytes) && plain s'
  end.

Lemma occurs_app (c : ascii) (s t : string) :
  occurs c (s +:+ t) = occurs c s || occurs c t.
Proof.
  induction s as [|a s IH]; [done|].
  rewrite Text.app_cons. cbn [occurs]. by rewrite IH, orb_assoc.
Qed.

Lemma table_spec (a : ascii) :
  match htmlReplacementTable a with
  | Some repl =>
      a ∈ specialBytes ∧ Text.oneLine repl = true ∧ Text.isNl a = false ∧
      (1 < String.length repl)%nat ∧
      ∀ c, c ∈ specialBytes → c ≠ "&"%char → occurs c repl = false
  | None => a ∉ specialBytes
  end.
Proof.
  destruct a as [[] [] [] [] [] [] [] []]; cbn [htmlReplacementTable];
    first
      [ by (apply (bool_decide_unpack _); vm_compute)
      | (split; [by (apply (bool_decide_unpack _); vm_compute)|];
         split; [done|]; split; [done|]; split; [cbn; lia|];
         intros c Hc Hamp; unfold specialBytes in Hc;
         repeat (apply elem_of_cons in Hc as [->|Hc]; [done|]);
         by apply elem_of_nil in Hc) ].
Qed.

Lemma htmlEscaper_app (s t : string) :
  htmlEscaper (s +:+ t) = htmlEscaper s +:+ htmlEscaper t.
Proof.
  induction s as [|a s IH]; [done|].
  rewrite Text.app_cons. cbn [htmlEscaper]. rewrite IH.
  destruct (htmlReplacementTable a); [by rewrite Text.app_assoc|done].
Qed.

Lemma htmlEscaper_occurs (c : ascii) (s : string) :
  c ∈ specialBytes → c ≠ "&"%char → occurs c (htmlEscaper s) = false.
Proof.
  intros Hc Hamp. induction s as [|a s IH]; [done|].
  cbn [htmlEscaper]. pose proof (table_spec a) as Ha.
  destruct (htmlReplacementTable a) as [repl|].
  - destruct Ha as (_ & _ & _ & _ & Hrepl). by rewrite occurs_app, Hrepl, IH.
  - cbn [occurs]. rewrite IH, orb_false_r. apply bool_decide_eq_false_2.
    by intros ->.
Qed.

Lemma htmlEscaper_length (s : string) :
  (String.length s ≤ String.length (htmlEscaper s))%nat ∧
  (plain s = false → String.length s < String.length (htmlEscaper s))%nat.
Proof.
  induction s as [|a s [IHle IHlt]]; [done|].
  cbn [htmlEscaper plain String.length]. pose proof (table_spec a) as Ha.
  destruct (htmlReplacementTable a) as [repl|].
  - destruct Ha as (_ & _ & _ & Hlen & _).
    assert (String.length (repl +:+ htmlEscaper s) =
            (String.length repl + String.length (htmlEscaper s))%nat) as ->.
    { clear. induction repl as [|b r IH]; [done|]. rewrite Text.app_cons. simpl. by rewrite IH. }
    split; [lia|]. intros _. lia.
  - rewrite bool_decide_eq_true_2 by done. cbn [andb String.length].
    split; [lia|]. intros Hp. specialize (IHlt Hp). lia.
Qed.

Lemma htmlEscaper_plain (s : string) : plain s = true → htmlEscaper s = s.
Proof.
  induction s as [|a s IH]; [done|].
  cbn [plain htmlEscaper]. intros [Ha Hs]%andb_true_iff.
  apply bool_decide_eq_true_1 in Ha. pose proof (table_spec a) as Hspec.
  destruct (htmlReplacementTable a) as [repl|]; [by destruct Hspec|].
  by rewrite IH.
Qed.

(** X1.  In the rendered document the handler stands between the two
    quotes of the [CMD] line in escaped form, and the escaped form of any
    value holds no double quote, no single quote, no angle bracket, no
    plus sign and no NUL byte: a handler cannot close the quote it is
    printed in. *)
Theorem escaped_values_hold_no_quote (cmd : string) (config : Config) (f : File) (w : World) :
  (∃ pre post : string,
     generateDockerfile cmd config (Some f) w =
       (Returns None,
        appendTo (file_name f)
          (pre +:+ "CMD [" +:+ Text.dquote +:+ htmlEscaper cmd +:+ Text.dquote +:+ "]" +:+ post)
          w)) ∧
  (∀ (s : string) (c : ascii),
     c ∈ [ "000"; "034"; "'"; "+"; "<"; ">" ]%char → occurs c (htmlEscaper s) = false).
Proof.
  split.
  - exists (fromLine (BuilderRunImage config) +:+ portSection (Port config) +:+ Text.nl +:+
            envSection (ImageEnv config) +:+ Text.nl +:+ Text.nl),
           (Text.nl +:+ copyLine).
    rewrite generateDockerfile_writes. unfold dockerfileText, cmdLine.
    by rewrite !Text.app_assoc.
  - intros s c Hc.
    repeat (apply elem_of_cons in Hc as [->|Hc];
            [by apply htmlEscaper_occurs; [apply (bool_decide_unpack _); vm_compute|]|]).
    by apply elem_of_nil in Hc.
Qed.

(** X2.  The escaper leaves a value as it is exactly when the value holds
    none of the seven bytes it rewrites (NUL, double quote, ampersand,
    single quote, plus, less-than, greater-than).  When the run image,
    every runtime environment entry and the handler are such values, the
    document shows each of them verbatim. *)
Theorem plain_values_are_rendered_verbatim (cmd : string) (config : Config) (f : File)
    (w : World) :
  (∀ s : string, htmlEscaper s = s ↔ plain s = true) ∧
  (plain (BuilderRunImage config) = true →
   Forall (λ entry, plain entry = true) (ImageEnv config) →
   plain cmd = true →
   generateDockerfile cmd config (Some f) w =
     (Returns None,
      appendTo (file_name f)
        (Text.nl +:+ "FROM " +:+ BuilderRunImage config +:+ Text.nl +:+
         portSection (Port config) +:+ Text.nl +:+
         Text.join (map (λ entry, Text.nl +:+ "ENV " +:+ entry +:+ Text.nl) (ImageEnv config)) +:+
         Text.nl +:+
         Text.nl +:+ "CMD [" +:+ Text.dquote +:+ cmd +:+ Text.dquote +:+ "]" +:+ Text.nl +:+
         Text.nl +:+ "COPY . /var/task" +:+ Text.nl) w)).
Proof.
  split.
  - intros s. split; [|apply htmlEscaper_plain].
    intros Heq. destruct (plain s) eqn:Hp; [done|].
    destruct (htmlEscaper_length s) as [_ Hlt]. specialize (Hlt Hp).
    rewrite Heq in Hlt. lia.
  - intros Himg Henv Hcmd. rewrite generateDockerfile_writes.
    assert (map envLine (ImageEnv config) =
            map (λ entry, Text.nl +:+ "ENV " +:+ entry +:+ Text.nl) (ImageEnv config)) as Hmap.
    { induction Henv as [|entry env Hentry _ IH]; [done|].
      cbn [map]. unfold envLine at 1. by rewrite htmlEscaper_plain, IH. }
    unfold dockerfileText, fromLine, cmdLine, copyLine, envSection.
    rewrite Hmap, !htmlEscaper_plain by done. by rewrite !Text.app_assoc.
Qed.

Lemma plain_values_are_rendered_verbatim_witness :
  generateDockerfile "bootstrap" (withImageEnv ["STAGE=prod"] exampleConfig)
    (Some scratchFile) emptyWorld =
    (Returns None,
     appendTo "/tmp/lambda-builder42"
       (Text.nl +:+ "FROM " +:+ "lambci/lambda:go1.x" +:+ Text.nl +:+
        portSection (-1) +:+ Text.nl +:+
        Text.join (map (λ entry, Text.nl +:+ "ENV " +:+ entry +:+ Text.nl) ["STAGE=prod"]) +:+
        Text.nl +:+
        Text.nl +:+ "CMD [" +:+ Text.dquote +:+ "bootstrap" +:+ Text.dquote +:+ "]" +:+ Text.nl +:+
        Text.nl +:+ "COPY . /var/task" +:+ Text.nl) emptyWorld).
Proof.
  apply (proj2 (plain_values_are_rendered_verbatim "bootstrap"
                  (withImageEnv ["STAGE=prod"] exampleConfig) scratchFile emptyWorld)).
  - reflexivity.
  - repeat constructor.
  - reflexivity.
Defined.

Lemma oneLine_htmlEscaper (s : string) : Text.oneLine (htmlEscaper s) = Text.oneLine s.
Proof.
  induction s as [|a s IH]; [done|].
  cbn [htmlEscaper Text.oneLine]. pose proof (table_spec a) as Ha.
  destruct (htmlReplacementTable a) as [repl|].
  - destruct Ha as (_ & Hrepl & Hnl & _). by rewrite Text.oneLine_app, Hrepl, Hnl, IH.
  - cbn [Text.oneLine]. by rewrite IH.
Qed.

Lemma env_section_lines (env : list string) (rest : string) :
  Text.nonblank (Text.lines (envSection env +:+ rest)) =
    flat_map (λ entry, Text.nonblank (Text.lines ("ENV " +:+ htmlEscaper entry))) env ++
    Text.nonblank (Text.lines rest).
Proof.
  unfold envSection. induction env as [|entry env IH]; [done|].
  cbn [map Text.join flat_map]. unfold envLine at 1.
  assert ((Text.nl +:+ "ENV " +:+ htmlEscaper entry +:+ Text.nl) +:+
            Text.join (map envLine env) +:+ rest =
          "" +:+ Text.nl +:+ ("ENV " +:+ htmlEscaper entry) +:+ Text.nl +:+
            Text.join (map envLine env) +:+ rest) as Heq.
  { by rewrite !Text.app_assoc. }
  rewrite Text.app_assoc, Heq, !Text.lines_app_nl, !Text.nonblank_app, IH.
  cbn [Text.lines]. rewrite Text.nonblank_blank. by rewrite <- (assoc_L (++)).
Qed.

Lemma document_tail_lines (env : list string) (cmd : string) :
  Text.nonblank (Text.lines (envSection env +:+ Text.nl +:+ cmdLine cmd +:+ copyLine)) =
    flat_map (λ entry, Text.nonblank (Text.lines ("ENV " +:+ htmlEscaper entry))) env ++
    Text.nonblank
      (Text.lines ("CMD [" +:+ Text.dquote +:+ htmlEscaper cmd +:+ Text.dquote +:+ "]")) ++
    ["COPY . /var/task"].
Proof.
  rewrite env_section_lines. f_equal.
  assert (Text.nl +:+ cmdLine cmd +:+ copyLine =
          "" +:+ Text.nl +:+ "" +:+ Text.nl +:+
          ("CMD [" +:+ Text.dquote +:+ htmlEscaper cmd +:+ Text.dquote +:+ "]") +:+ Text.nl +:+
          "" +:+ Text.nl +:+ "COPY . /var/task" +:+ Text.nl +:+ "") as ->.
  { unfold cmdLine, copyLine. by rewrite !Text.app_assoc. }
  rewrite !Text.lines_app_nl, !Text.nonblank_app. by cbn [Text.lines].
Qed.

Lemma document_head_lines (runImage : string) :
  Text.nonblank (Text.lines (Text.nl +:+ "FROM " +:+ htmlEscaper runImage)) =
    Text.nonblank (Text.lines ("FROM " +:+ htmlEscaper runImage)).
Proof.
  change (Text.nl +:+ "FROM " +:+ htmlEscaper runImage)
    with ("" +:+ Text.nl +:+ "FROM " +:+ htmlEscaper runImage).
  by rewrite Text.lines_app_nl, Text.nonblank_app.
Qed.

Lemma document_lines (cmd : string) (config : Config) :
  Text.nonblank (Text.lines (dockerfileText cmd config)) =
    Text.nonblank (Text.lines ("FROM " +:+ htmlEscaper (BuilderRunImage config))) ++
    (if bool_decide (Port config = -1) then []
     else [ "ENV DOCKER_LAMBDA_API_PORT=" +:+ Itoa (Port config);
            "ENV DOCKER_LAMBDA_RUNTIME_PORT=" +:+ Itoa (Port config) ]) ++
    flat_map (λ entry, Text.nonblank (Text.lines ("ENV " +:+ htmlEscaper entry)))
      (ImageEnv config) ++
    Text.nonblank
      (Text.lines ("CMD [" +:+ Text.dquote +:+ htmlEscaper cmd +:+ Text.dquote +:+ "]")) ++
    ["COPY . /var/task"].
Proof.
  set (head := Text.nl +:+ "FROM " +:+ htmlEscaper (BuilderRunImage config)).
  set (tail := envSection (ImageEnv config) +:+ Text.nl +:+ cmdLine cmd +:+ copyLine).
  assert (dockerfileText cmd config =
          (head +:+ Text.nl) +:+ portSection (Port config) +:+ Text.nl +:+ tail) as ->.
  { unfold dockerfileText, fromLine, head, tail. by rewrite !Text.app_assoc. }
  unfold portSection. case_bool_decide.
  - change ("" +:+ Text.nl +:+ tail) with (Text.nl +:+ tail).
    rewrite (no_port_block_lines head tail).
    unfold head, tail. by rewrite document_head_lines, document_tail_lines.
  - rewrite (port_block_lines head tail).
    unfold head, tail. by rewrite document_head_lines, document_tail_lines.
Qed.

(** X3.  When the run image, the handler and every runtime environment
    entry are free of line breaks, the document, blank lines aside, is
    made of: the [FROM] line, the two port lines unless the port is the
    sentinel, one [ENV] line per entry in the order of [ImageEnv], the
    [CMD] line, and the [COPY] line last. *)
Theorem document_line_by_line (cmd : string) (config : Config) (f : File) (w : World) :
  Text.oneLine (BuilderRunImage config) = true →
  Forall (λ entry, Text.oneLine entry = true) (ImageEnv config) →
  Text.oneLine cmd = true →
  ∃ text : string,
    generateDockerfile cmd config (Some f) w = (Returns None, appendTo (file_name f) text w) ∧
    Text.nonblank (Text.lines text) =
      [ "FROM " +:+ htmlEscaper (BuilderRunImage config) ] ++
      (if bool_decide (Port config = -1) then []
       else [ "ENV DOCKER_LAMBDA_API_PORT=" +:+ Itoa (Port config);
              "ENV DOCKER_LAMBDA_RUNTIME_PORT=" +:+ Itoa (Port config) ]) ++
      map (λ entry, "ENV " +:+ htmlEscaper entry) (ImageEnv config) ++
      [ "CMD [" +:+ Text.dquote +:+ htmlEscaper cmd +:+ Text.dquote +:+ "]";
        "COPY . /var/task" ].
Proof.
  intros Himg Henv Hcmd. exists (dockerfileText cmd config).
  split; [apply generateDockerfile_writes|]. rewrite document_lines.
  rewrite (Text.lines_oneLine ("FROM " +:+ htmlEscaper (BuilderRunImage config)))
    by (by rewrite Text.oneLine_app, oneLine_htmlEscaper, Himg).
  rewrite (Text.lines_oneLine
             ("CMD [" +:+ Text.dquote +:+ htmlEscaper cmd +:+ Text.dquote +:+ "]"))
    by (by rewrite !Text.oneLine_app, oneLine_htmlEscaper, Hcmd).
  rewrite !Text.nonblank_single by done. do 2 f_equal.
  f_equal. induction Henv as [|entry env Hentry _ IH]; [done|].
  cbn [flat_map map]. rewrite IH.
  rewrite (Text.lines_oneLine ("ENV " +:+ htmlEscaper entry))
    by (by rewrite Text.oneLine_app, oneLine_htmlEscaper, Hentry).
  by rewrite Text.nonblank_single.
Qed.

Lemma document_line_by_line_witness :
  ∃ text : string,
    generateDockerfile "bootstrap"
      (withPort 8080 (withImageEnv ["A=1"; "B=x&y"] exampleConfig))
      (Some scratchFile) emptyWorld =
      (Returns None, appendTo "/tmp/lambda-builder42" text emptyWorld) ∧
    Text.nonblank (Text.lines text) =
      [ "FROM " +:+ htmlEscaper "lambci/lambda:go1.x" ] ++
      (if bool_decide (8080 = -1) then []
       else [ "ENV DOCKER_LAMBDA_API_PORT=" +:+ Itoa 8080;
              "ENV DOCKER_LAMBDA_RUNTIME_PORT=" +:+ Itoa 8080 ]) ++
      map (λ entry, "ENV " +:+ htmlEscaper entry) ["A=1"; "B=x&y"] ++
      [ "CMD [" +:+ Text.dquote +:+ htmlEscaper "bootstrap" +:+ Text.dquote +:+ "]";
        "COPY . /var/task" ].
Proof.
  apply (document_line_by_line "bootstrap"
           (withPort 8080 (withImageEnv ["A=1"; "B=x&y"] exampleConfig))
           scratchFile emptyWorld).
  - reflexivity.
  - repeat constructor.
  - reflexivity.
Defined.

(** X4.  Line breaks are not among the bytes the escaper rewrites, so a
    value that holds one spreads over several lines of the document: for
    every input the lines of the document, blank lines aside, are the
    lines of the [FROM] text, the port lines, the lines of each [ENV]
    text in order, the lines of the [CMD] text and the [COPY] line; and
    the part of an entry after a line break starts a line of its own. *)
Theorem line_breaks_pass_through (cmd : string) (config : Config) (f : File) (w : World) :
  (∃ text : string,
     generateDockerfile cmd config (Some f) w = (Returns None, appendTo (file_name f) text w) ∧
     Text.nonblank (Text.lines text) =
       Text.nonblank (Text.lines ("FROM " +:+ htmlEscaper (BuilderRunImage config))) ++
       (if bool_decide (Port config = -1) then []
        else [ "ENV DOCKER_LAMBDA_API_PORT=" +:+ Itoa (Port config);
               "ENV DOCKER_LAMBDA_RUNTIME_PORT=" +:+ Itoa (Port config) ]) ++
       flat_map (λ entry, Text.nonblank (Text.lines ("ENV " +:+ htmlEscaper entry)))
         (ImageEnv config) ++
       Text.nonblank
         (Text.lines ("CMD [" +:+ Text.dquote +:+ htmlEscaper cmd +:+ Text.dquote +:+ "]")) ++
       ["COPY . /var/task"]) ∧
  (∀ first second : string,
     Text.lines ("ENV " +:+ htmlEscaper (first +:+ Text.nl +:+ second)) =
       Text.lines ("ENV " +:+ htmlEscaper first) ++ Text.lines (htmlEscaper second)).
Proof.
  split.
  - exists (dockerfileText cmd config). split; [apply generateDockerfile_writes|].
    apply document_lines.
  - intros first second. rewrite !htmlEscaper_app.
    change (htmlEscaper Text.nl) with Text.nl.
    by rewrite <- Text.lines_app_nl, Text.app_assoc.
Qed.

(** * Further properties of the pipeline *)

Lemma foldl_flag_pairs (flag : string) (values init : list string) :
  foldl (λ args value, args ++ [flag; value]) init values =
    init ++ flat_map (λ value, [flag; value]) values.
Proof.
  revert init. induction values as [|value values IH]; intros init.
  - by rewrite app_nil_r.
  - cbn [foldl flat_map]. rewrite IH. by rewrite <- (assoc_L (++)).
Qed.

(** X5.  Whatever happens to the sandbox, [executeBuildContainer] makes
    exactly one call: [docker], run in the working directory, streaming
    unless quiet, with the fixed options, then one [--env] pair per entry
    of [BuildEnv] in order, then the build image and the shell invocation
    with the script as the last argument. *)
Theorem sandbox_command_line (H : Host) (script : string) (config : Config) (w : World) :
  ∃ (r : option error) (w' : World) (task : ExecTask),
    executeBuildContainer H script config w = (Returns r, w') ∧
    calls w' = calls w ++ [CallExecute task] ∧
    stdout w' = stdout w ∧
    Command task = "docker" ∧
    Cwd task = WorkingDirectory config ∧
    StreamStdio task = negb (RunQuiet config) ∧
    Args task =
      [ "container"; "run"; "--rm";
        "--env"; "LAMBDA_BUILD_ZIP=1";
        "--label"; "com.dokku.lambda-builder/executor=true";
        "--name"; "lambda-builder-executor-" +:+ Identifier config;
        "--volume"; WorkingDirectory config +:+ ":/tmp/task" ] ++
      flat_map (λ envPair, ["--env"; envPair]) (BuildEnv config) ++
      [ BuilderBuildImage config; "/bin/bash"; "-c"; script ].
Proof.
  rewrite executeBuildContainer_run. cbn zeta.
  destruct (host_Execute H _ _) as [r fs'].
  eexists _, _, (sandboxTask script config). split; [done|].
  repeat (split; [done|]).
  unfold sandboxTask. cbn [Args]. rewrite foldl_flag_pairs. by rewrite <- (assoc_L (++)).
Qed.

(** X6.  [executeBuildContainer] returns [nil] exactly when the sandbox
    was launched and exited with code zero. *)
Theorem sandbox_succeeds_iff_exit_zero (H : Host) (script : string) (config : Config)
    (w : World) :
  ∃ (err : option error) (w' : World),
    executeBuildContainer H script config w = (Returns err, w') ∧
    (err = None ↔
     ∃ res : ExecResult,
       (host_Execute H (sandboxTask script config) (files w)).1 = inr res ∧
       ExitCode res = 0).
Proof.
  rewrite executeBuildContainer_run. cbn zeta.
  destruct (host_Execute H _ _) as [[cause|res] fs']; cbn [fst].
  - eexists _, _. split; [done|]. split; [done|]. by intros (res & [=] & _).
  - case_bool_decide as Hcode; eexists _, _; (split; [done|]).
    + split; [done|]. intros (res' & [= <-] & Hzero). done.
    + split; [|done]. intros _. exists res. split; [done|].
      destruct (decide (ExitCode res = 0)); [done|]. by destruct Hcode.
Qed.

Lemma defer_RemoveAll {A} (dir : string) (body : M A) (w : World) :
  defer (os_RemoveAll dir) body w = ((body w).1, removeAll dir (body w).2).
Proof. unfold defer. destruct (body w) as [r w1]. by rewrite os_RemoveAll_run. Qed.




(** X8.  When the sandbox has succeeded and the scratch directory cannot
    be made, [executeBuilder] returns the error around the cause; nothing
    is read, extracted or removed. *)
Theorem scratch_directory_failure_aborts (H : Host) (script : string) (config : Config)
    (w : World) (fs1 : gmap string string) (cause : error) :
  host_Execute H (sandboxTask script config) (files w) = (inr (mkExecResult 0), fs1) →
  host_MkdirTemp H fs1 = inl cause →
  executeBuilder H script config w =
    (Returns (Some ("error creating build dir: " +:+ cause)),
     mkWorld fs1 (stdout w)
       (calls w ++ [CallExecute (sandboxTask script config); CallMkdirTemp])).
Proof.
  intros Hexec Hmk. unfold executeBuilder.
  unfold bind at 1. rewrite executeBuildContainer_run. cbn zeta. rewrite Hexec.
  rewrite bool_decide_eq_false_2 by (simpl; lia).
  unfold os_MkdirTemp. run. rewrite Hmk. run. by rewrite <- (assoc_L (++)).
Qed.

Definition noScratchHost : Host := {|
  host_Execute := λ _ fs, (inr (mkExecResult 0), <["/app/lambda.zip" := "PK"]> fs);
  host_MkdirTemp := λ _, inl "mkdir /tmp/lambda-builder1: read-only file system";
  host_TempFile := λ _, inr "/tmp/lambda-builder2";
  host_openFault := λ _, None;
  host_readFault := λ _, None;
  host_writeFault := λ _, None;
  host_extractZip := λ _ _ fs, (None, fs);
  host_yamlUnmarshal := λ _, (zeroLambdaYML, None);
  host_detectHandler := λ _ _ _, "bootstrap"
|}.

Lemma scratch_directory_failure_aborts_witness :
  executeBuilder noScratchHost "make" exampleConfig emptyWorld =
    (Returns (Some ("error creating build dir: " +:+
                    "mkdir /tmp/lambda-builder1: read-only file system")),
     mkWorld (<["/app/lambda.zip" := "PK"]> ∅) []
       ([] ++ [CallExecute (sandboxTask "make" exampleConfig); CallMkdirTemp])).
Proof.
  apply (scratch_directory_failure_aborts noScratchHost "make" exampleConfig emptyWorld
           (<["/app/lambda.zip" := "PK"]> ∅)
           "mkdir /tmp/lambda-builder1: read-only file system"); reflexivity.
Defined.

Lemma executeBuilder_extracted (H : Host) (script : string) (config : Config) (w : World)
    (fs1 fs2 : gmap string string) (dir : string) :
  host_Execute H (sandboxTask script config) (files w) = (inr (mkExecResult 0), fs1) →
  host_MkdirTemp H fs1 = inr dir →
  host_extractZip H
    (archiveBytes H fs1 (filepath.Join (WorkingDirectory config) "lambda.zip")) dir fs1 =
    (None, fs2) →
  executeBuilder H script config w =
    ((afterExtract H config dir (extracted script config w fs2 dir)).1,
     removeAll dir (afterExtract H config dir (extracted script config w fs2 dir)).2).
Proof.
  intros Hexec Hmk Hzip.
  rewrite (executeBuilder_run H script config w fs1 dir) by done.
  rewrite defer_RemoveAll. unfold extract_Zip, beforeExtract. run. rewrite Hzip. run.
  unfold extracted. by rewrite <- !(assoc_L (++)).
Qed.

Lemma afterExtract_run (H : Host) (config : Config) (dir : string) (w : World) :
  afterExtract H config dir w =
    match procfileStep H (resolvedHandler H dir config (files w)) config dir w with
    | (Returns (Some e), w1) => (Returns (Some e), w1)
    | (Returns None, w1) => imageStep H (resolvedHandler H dir config (files w)) config dir w1
    | (Panics msg, w1) => (Panics msg, w1)
    end.
Proof.
  unfold afterExtract. unfold bind at 1. rewrite getFunctionHandler_run.
  unfold bind. by destruct (procfileStep H _ config dir w) as [[[e|]|msg] w1].
Qed.

(** X9.  With the Procfile and the run image switched off, a sandbox
    that exits with zero and an archive that extracts make
    [executeBuilder] return [nil] after exactly four calls: the sandbox
    run, the creation of the scratch directory, the extraction and the
    removal of the scratch directory.  No Procfile is written, no
    temporary file is made and no image is built. *)
Theorem plain_build_succeeds (H : Host) (script : string) (config : Config) (w : World)
    (fs1 fs2 : gmap string string) (dir : string) :
  host_Execute H (sandboxTask script config) (files w) = (inr (mkExecResult 0), fs1) →
  host_MkdirTemp H fs1 = inr dir →
  host_extractZip H
    (archiveBytes H fs1 (filepath.Join (WorkingDirectory config) "lambda.zip")) dir fs1 =
    (None, fs2) →
  WriteProcfile config = false →
  GenerateRunImage config = false →
  executeBuilder H script config w =
    (Returns None,
     mkWorld (filter (λ kv, under dir kv.1 = false) fs2)
       (stdout w ++ ["-----> Extracting lambda.zip into build context dir" +:+ Text.nl])
       (calls w ++ [CallExecute (sandboxTask script config); CallMkdirTemp;
                    CallExtract dir; CallRemoveAll dir])).
Proof.
  intros Hexec Hmk Hzip Hwp Hgen.
  rewrite (executeBuilder_extracted H script config w fs1 fs2 dir) by done.
  rewrite afterExtract_run, procfileStep_run, Hwp. cbn [andb].
  unfold imageStep. rewrite Hgen. unfold ret, removeAll, extracted. cbn [fst snd files stdout calls].
  by rewrite <- !(assoc_L (++)).
Qed.

Definition plainConfig : Config :=
  mkConfig ["GOFLAGS=-mod=vendor"] "go" "lambci/lambda:build-go1.x" "" false "" ∅
    "1a2b" [] [] "" (-1) true "/app" false.

Lemma plain_build_succeeds_witness :
  executeBuilder noTempHost "make" plainConfig emptyWorld =
    (Returns None,
     mkWorld (filter (λ kv, under "/tmp/lambda-builder1" kv.1 = false)
                (<["/tmp/lambda-builder1/bootstrap" := "PK"]> (<["/app/lambda.zip" := "PK"]> ∅)))
       ([] ++ ["-----> Extracting lambda.zip into build context dir" +:+ Text.nl])
       ([] ++ [CallExecute (sandboxTask "make" plainConfig); CallMkdirTemp;
               CallExtract "/tmp/lambda-builder1"; CallRemoveAll "/tmp/lambda-builder1"])).
Proof.
  apply (plain_build_succeeds noTempHost "make" plainConfig emptyWorld
           (<["/app/lambda.zip" := "PK"]> ∅)
           (<["/tmp/lambda-builder1/bootstrap" := "PK"]> (<["/app/lambda.zip" := "PK"]> ∅))
           "/tmp/lambda-builder1"); reflexivity.
Defined.





Definition labelledConfig : Config :=
  mkConfig [] "" "lambci/lambda:build-go1.x" "lambci/lambda:go1.x" true "" ∅
    "1a2b" [] ["team=a"; "stage=prod"] "" 8080 false "/srv/app/" false.



Definition readOnlyBuildDirHost : Host := {|
  host_Execute := λ _ fs, (inr (mkExecResult 0), <["/app/lambda.zip" := "PK"]> fs);
  host_MkdirTemp := λ _, inr "/tmp/lambda-builder1";
  host_TempFile := λ _, inr "/tmp/lambda-builder2";
  host_openFault := λ _, None;
  host_readFault := λ _, None;
  host_writeFault := λ path,
    if bool_decide (path = "/tmp/lambda-builder1/Procfile")
    then Some "open /tmp/lambda-builder1/Procfile: permission denied" else None;
  host_extractZip := λ data dest fs,
    if bool_decide (data = "") then (Some "zip: not a valid zip file", fs)
    else (None, <[filepath.Join dest "bootstrap" := data]> fs);
  host_yamlUnmarshal := λ _, (zeroLambdaYML, None);
  host_detectHandler := λ _ _ _, "bootstrap"
|}.


(** X12.  An error of the Procfile step is returned by [executeBuilder]
    as it is, and the pipeline stops there: the only call after the step
    is the removal of the scratch directory, so no temporary Dockerfile is
    made and no image is built. *)
Theorem procfile_failure_aborts (H : Host) (script : string) (config : Config) (w w2 : World)
    (fs1 fs2 : gmap string string) (dir : string) (e : error) :
  host_Execute H (sandboxTask script config) (files w) = (inr (mkExecResult 0), fs1) →
  host_MkdirTemp H fs1 = inr dir →
  host_extractZip H
    (archiveBytes H fs1 (filepath.Join (WorkingDirectory config) "lambda.zip")) dir fs1 =
    (None, fs2) →
  procfileStep H (resolvedHandler H dir config fs2) config dir
    (extracted script config w fs2 dir) = (Returns (Some e), w2) →
  executeBuilder H script config w =
    (Returns (Some e),
     mkWorld (filter (λ kv, under dir kv.1 = false) (files w2)) (stdout w2)
       (calls w2 ++ [CallRemoveAll dir])).
Proof.
  intros Hexec Hmk Hzip Hproc.
  rewrite (executeBuilder_extracted H script config w fs1 fs2 dir) by done.
  rewrite afterExtract_run.
  change (files (extracted script config w fs2 dir)) with fs2.
  by rewrite Hproc.
Qed.

(** The world in which the Procfile step of [exampleConfig] has failed
    on its second write. *)
Definition procfileFailedWorld : World :=
  mkWorld
    (<["/app/Procfile" := "web: bootstrap"]>
       (<["/tmp/lambda-builder1/bootstrap" := "PK"]> (<["/app/lambda.zip" := "PK"]> ∅)))
    [ "-----> Extracting lambda.zip into build context dir" +:+ Text.nl;
      "=====> Writing Procfile from handler: bootstrap" +:+ Text.nl;
      "       Writing to working directory" +:+ Text.nl;
      "       Writing to build directory" +:+ Text.nl ]
    [ CallExecute (sandboxTask "make" exampleConfig); CallMkdirTemp;
      CallExtract "/tmp/lambda-builder1";
      CallWriteProcfile "bootstrap" "/app";
      CallWriteProcfile "bootstrap" "/tmp/lambda-builder1" ].

Lemma procfile_failure_aborts_witness :
  executeBuilder readOnlyBuildDirHost "make" exampleConfig emptyWorld =
    (Returns (Some ("error writing Procfile to temporary build directory: " +:+
                    "open /tmp/lambda-builder1/Procfile: permission denied")),
     mkWorld
       (filter (λ kv, under "/tmp/lambda-builder1" kv.1 = false) (files procfileFailedWorld))
       (stdout procfileFailedWorld)
       (calls procfileFailedWorld ++ [CallRemoveAll "/tmp/lambda-builder1"])).
Proof.
  apply (procfile_failure_aborts readOnlyBuildDirHost "make" exampleConfig emptyWorld
           procfileFailedWorld
           (<["/app/lambda.zip" := "PK"]> ∅)
           (<["/tmp/lambda-builder1/bootstrap" := "PK"]> (<["/app/lambda.zip" := "PK"]> ∅))
           "/tmp/lambda-builder1").
  - reflexivity.
  - reflexivity.
  - reflexivity.
  - vm_compute. reflexivity.
Defined.





(** * Further properties of the configuration *)

Lemma chars_app (s t : string) :
  String.list_ascii_of_string (s +:+ t) =
    String.list_ascii_of_string s ++ String.list_ascii_of_string t.
Proof.
  induction s as [|a s IH]; [done|]. rewrite Text.app_cons. simpl. by rewrite IH.
Qed.

Lemma occurs_false_chars (c : ascii) (s : string) :
  occurs c s = false → Forall (λ a, a ≠ c) (String.list_ascii_of_string s).
Proof.
  induction s as [|a s IH]; [by constructor|].
  cbn [occurs]. intros [Ha Hs]%orb_false_iff. apply bool_decide_eq_false_1 in Ha.
  constructor; auto.
Qed.

Lemma lastElem_stops (l k : list ascii) :
  Forall (λ a, a ≠ "/"%char) l →
  filepath.lastElem (l ++ "/"%char :: k) = l ∧ filepath.lastElem l = l.
Proof.
  induction 1 as [|a l Ha _ [IH1 IH2]]; [done|].
  cbn [app filepath.lastElem]. unfold filepath.isSep.
  rewrite bool_decide_eq_false_2 by done. by rewrite IH1, IH2.
Qed.

Lemma Base_of_name (front : list ascii) (name : string) :
  name ≠ "" →
  occurs "/"%char name = false →
  (front = [] ∨ ∃ k, front = "/"%char :: k) →
  let r := reverse (String.list_ascii_of_string name) ++ front in
  filepath.dropSeps r = r ∧ r ≠ [] ∧
  String.string_of_list_ascii (reverse (filepath.lastElem r)) = name.
Proof.
  intros Hne Hsep Hfront r.
  pose proof (occurs_false_chars _ _ Hsep) as Hall.
  assert (Forall (λ a, a ≠ "/"%char) (reverse (String.list_ascii_of_string name))) as Hrev.
  { by apply Forall_reverse. }
  destruct (reverse (String.list_ascii_of_string name)) as [|a l] eqn:Hr.
  { apply (f_equal reverse) in Hr. rewrite reverse_involutive in Hr.
    apply (f_equal String.string_of_list_ascii) in Hr.
    rewrite String.string_of_list_ascii_of_string in Hr. by destruct Hne. }
  subst r. split; [|split; [done|]].
  - cbn [app filepath.dropSeps]. unfold filepath.isSep.
    rewrite bool_decide_eq_false_2; [done|]. by inversion Hrev.
  - assert (filepath.lastElem ((a :: l) ++ front) = a :: l) as ->.
    { destruct Hfront as [->|[k ->]].
      - rewrite app_nil_r. by apply (lastElem_stops (a :: l) []).
      - by apply (lastElem_stops (a :: l) k). }
    rewrite <- Hr, reverse_involutive. apply String.string_of_list_ascii_of_string.
Qed.

Lemma Base_last_element (dir name : string) :
  name ≠ "" →
  occurs "/"%char name = false →
  filepath.Base name = name ∧
  filepath.Base (dir +:+ "/" +:+ name) = name ∧
  filepath.Base (dir +:+ "/" +:+ name +:+ "/") = name.
Proof.
  intros Hne Hsep. unfold filepath.Base. split; [|split].
  - rewrite bool_decide_eq_false_2 by done.
    destruct (Base_of_name [] name Hne Hsep) as (Hdrop & Hnil & Hlast); [by left|].
    rewrite app_nil_r in *. cbn zeta in *. rewrite Hdrop.
    by rewrite bool_decide_eq_false_2.
  - rewrite bool_decide_eq_false_2.
    2:{ intros [_ Hx]%Text.app_eq_nil. by rewrite Text.app_cons in Hx. }
    rewrite !chars_app, !reverse_app. cbn [String.list_ascii_of_string reverse app].
    destruct (Base_of_name ("/"%char :: reverse (String.list_ascii_of_string dir)) name Hne Hsep)
      as (Hdrop & Hnil & Hlast); [right; by eexists|].
    cbn zeta in *. change (reverse ["/"%char]) with ["/"%char].
    rewrite <- (assoc_L (++)). cbn [app]. rewrite Hdrop.
    by rewrite bool_decide_eq_false_2.
  - rewrite bool_decide_eq_false_2.
    2:{ intros [_ Hx]%Text.app_eq_nil. by rewrite Text.app_cons in Hx. }
    rewrite !chars_app, !reverse_app. cbn [String.list_ascii_of_string reverse app].
    destruct (Base_of_name ("/"%char :: reverse (String.list_ascii_of_string dir)) name Hne Hsep)
      as (Hdrop & Hnil & Hlast); [right; by eexists|].
    cbn zeta in *. change (reverse ["/"%char]) with ["/"%char].
    rewrite <- !(assoc_L (++)). cbn [app filepath.dropSeps].
    change (filepath.isSep "/") with true. cbn iota. rewrite Hdrop.
    by rewrite bool_decide_eq_false_2.
Qed.

(** X14.  An explicit image tag is returned as it is.  Without one, the
    tag is [lambda-builder/NAME:latest] where [NAME] is the last element
    of the working directory: the directories in front of it and one
    trailing separator do not matter.  For the empty working directory
    the name is a dot. *)
Theorem default_image_tag (c : Config) :
  (ImageTag c ≠ "" → GetImageTag c = ImageTag c) ∧
  (ImageTag c = "" →
   ∀ dir name : string,
     name ≠ "" →
     occurs "/"%char name = false →
     WorkingDirectory c = name ∨
     WorkingDirectory c = dir +:+ "/" +:+ name ∨
     WorkingDirectory c = dir +:+ "/" +:+ name +:+ "/" →
     GetImageTag c = "lambda-builder/" +:+ name +:+ ":latest") ∧
  (ImageTag c = "" → WorkingDirectory c = "" →
   GetImageTag c = "lambda-builder/.:latest").
Proof.
  unfold GetImageTag. split; [|split].
  - intros Htag. by rewrite bool_decide_eq_true_2.
  - intros Htag dir name Hne Hsep Hwd.
    rewrite bool_decide_eq_false_2 by (by rewrite Htag; intros []).
    destruct (Base_last_element dir name Hne Hsep) as (H1 & H2 & H3).
    by destruct Hwd as [->|[->| ->]]; rewrite ?H1, ?H2, ?H3.
  - intros Htag Hwd. rewrite bool_decide_eq_false_2 by (by rewrite Htag; intros []).
    by rewrite Hwd.
Qed.

Lemma default_image_tag_witness :
  GetImageTag labelledConfig = "lambda-builder/" +:+ "app" +:+ ":latest".
Proof.
  apply (proj1 (proj2 (default_image_tag labelledConfig)) eq_refl "/srv" "app").
  - discriminate.
  - reflexivity.
  - right. right. reflexivity.
Defined.

Lemma ParseLambdaYML_open_fault (H : Host) (config : Config) (w : World)
    (content : string) (e : error) :
  files w !! filepath.Join (WorkingDirectory config) "lambda.yml" = Some content →
  host_openFault H (filepath.Join (WorkingDirectory config) "lambda.yml") = Some e →
  ParseLambdaYML H config w =
    (Returns (zeroLambdaYML, Some ("error opening lambda.yml: " +:+ e)), w).
Proof.
  intros Hsome Hopen. unfold ParseLambdaYML, bind.
  rewrite FileExistsInDirectory_run, Hsome, bool_decide_eq_true_2 by done.
  unfold os_Open. run. by rewrite Hsome, Hopen.
Qed.

Lemma ParseLambdaYML_read_fault (H : Host) (config : Config) (w : World)
    (content : string) (n : nat) (e : error) :
  files w !! filepath.Join (WorkingDirectory config) "lambda.yml" = Some content →
  host_openFault H (filepath.Join (WorkingDirectory config) "lambda.yml") = None →
  host_readFault H (filepath.Join (WorkingDirectory config) "lambda.yml") = Some (n, e) →
  ParseLambdaYML H config w =
    (Returns (zeroLambdaYML, Some ("error reading lambda.yml: " +:+ e)), w).
Proof.
  intros Hsome Hopen Hread. unfold ParseLambdaYML, bind.
  rewrite FileExistsInDirectory_run, Hsome, bool_decide_eq_true_2 by done.
  unfold os_Open, ioutil_ReadAll. run. rewrite Hsome, Hopen. cbn. by rewrite Hread.
Qed.

(** X15.  Reading the project override document changes nothing:
    [ParseLambdaYML], [getBuildImage] and [getRunImage] always return
    (they never panic), make no call, print nothing and leave every file
    as it was, so they can be asked any number of times. *)
Theorem override_document_is_only_read (H : Host) (config : Config) (defaultImage : string)
    (w : World) :
  (∃ r, ParseLambdaYML H config w = (Returns r, w)) ∧
  (∃ r, getBuildImage H config defaultImage w = (Returns r, w)) ∧
  (∃ r, getRunImage H config defaultImage w = (Returns r, w)).
Proof.
  assert (∃ r, ParseLambdaYML H config w = (Returns r, w)) as [r Hparse].
  { destruct (files w !! filepath.Join (WorkingDirectory config) "lambda.yml")
      as [content|] eqn:Hfile.
    - destruct (host_openFault H (filepath.Join (WorkingDirectory config) "lambda.yml"))
        as [eo|] eqn:Hopen;
      [|destruct (host_readFault H (filepath.Join (WorkingDirectory config) "lambda.yml"))
          as [[n er]|] eqn:Hread].
      + rewrite (ParseLambdaYML_open_fault H config w content eo) by done. by eexists.
      + rewrite (ParseLambdaYML_read_fault H config w content n er) by done. by eexists.
      + rewrite (ParseLambdaYML_present H config w content) by done. by eexists.
    - rewrite ParseLambdaYML_absent by done. by eexists. }
  split; [by eexists|]. split.
  - unfold getBuildImage, bind. case_bool_decide; [by eexists|]. rewrite Hparse.
    destruct r as [yml [e|]]; [by eexists|]. case_bool_decide; by eexists.
  - unfold getRunImage, bind. case_bool_decide; [by eexists|]. rewrite Hparse.
    destruct r as [yml [e|]]; [by eexists|]. case_bool_decide; by eexists.
Qed.

(** X16.  For a [lambda.yml] that is present, the error of
    [ParseLambdaYML] tells which step failed: opening, reading or
    decoding, each around its cause.  A failed decoding returns the
    document as far as the decoder filled it, with the error; a document
    that opens, reads and decodes is returned as decoded, with no error. *)
Theorem override_document_outcomes (H : Host) (config : Config) (w : World)
    (content : string) :
  files w !! filepath.Join (WorkingDirectory config) "lambda.yml" = Some content →
  (∀ e : error,
     host_openFault H (filepath.Join (WorkingDirectory config) "lambda.yml") = Some e →
     ParseLambdaYML H config w =
       (Returns (zeroLambdaYML, Some ("error opening lambda.yml: " +:+ e)), w)) ∧
  (host_openFault H (filepath.Join (WorkingDirectory config) "lambda.yml") = None →
   (∀ (n : nat) (e : error),
      host_readFault H (filepath.Join (WorkingDirectory config) "lambda.yml") = Some (n, e) →
      ParseLambdaYML H config w =
        (Returns (zeroLambdaYML, Some ("error reading lambda.yml: " +:+ e)), w)) ∧
   (host_readFault H (filepath.Join (WorkingDirectory config) "lambda.yml") = None →
    (∀ (yml : LambdaYML) (e : error),
       host_yamlUnmarshal H content = (yml, Some e) →
       ParseLambdaYML H config w =
         (Returns (yml, Some ("error unmarshaling lambda.yml: " +:+ e)), w)) ∧
    (∀ yml : LambdaYML,
       host_yamlUnmarshal H content = (yml, None) →
       ParseLambdaYML H config w = (Returns (yml, None), w)))).
Proof.
  intros Hfile. split; [intros e; by apply (ParseLambdaYML_open_fault H config w content)|].
  intros Hopen.
  split; [intros n e; by apply (ParseLambdaYML_read_fault H config w content n)|].
  intros Hread. rewrite (ParseLambdaYML_present H config w content) by done.
  split; [intros yml e ->|intros yml ->]; done.
Qed.

Lemma override_document_outcomes_witness :
  ParseLambdaYML yamlHost (withImages "" "" exampleConfig) overrideWorld =
    (Returns (mkLambdaYML "" "custom/python-build" "", None), overrideWorld).
Proof.
  apply (proj2 (proj2 (proj2 (override_document_outcomes yamlHost
           (withImages "" "" exampleConfig) overrideWorld
           "build_image: custom/python-build" eq_refl) eq_refl) eq_refl)).
  reflexivity.
Defined.

(** X17.  A [lambda.yml] that is present but cannot be opened, read or
    decoded makes [getBuildImage] and [getRunImage] fail, with an empty
    image, when the configuration names no image: the default is not used
    as a fallback.  An image named in the configuration is returned all
    the same, as the document is then not read. *)
Theorem broken_override_document_fails_resolution (H : Host) (config : Config)
    (defaultImage : string) (w : World) (content : string) :
  files w !! filepath.Join (WorkingDirectory config) "lambda.yml" = Some content →
  is_Some (host_openFault H (filepath.Join (WorkingDirectory config) "lambda.yml")) ∨
  is_Some (host_readFault H (filepath.Join (WorkingDirectory config) "lambda.yml")) ∨
  is_Some (host_yamlUnmarshal H content).2 →
  (BuilderBuildImage config = "" →
   ∃ e : error, getBuildImage H config defaultImage w = (Returns ("", Some e), w)) ∧
  (BuilderRunImage config = "" →
   ∃ e : error, getRunImage H config defaultImage w = (Returns ("", Some e), w)) ∧
  (BuilderBuildImage config ≠ "" →
   getBuildImage H config defaultImage w = (Returns (BuilderBuildImage config, None), w)) ∧
  (BuilderRunImage config ≠ "" →
   getRunImage H config defaultImage w = (Returns (BuilderRunImage config, None), w)).
Proof.
  intros Hfile Hbad.
  assert (∃ yml e, ParseLambdaYML H config w = (Returns (yml, Some e), w))
    as (yml & e & Hparse).
  { destruct (host_openFault H (filepath.Join (WorkingDirectory config) "lambda.yml"))
      as [eo|] eqn:Hopen.
    { rewrite (ParseLambdaYML_open_fault H config w content eo) by done. by eexists _, _. }
    destruct (host_readFault H (filepath.Join (WorkingDirectory config) "lambda.yml"))
      as [[n er]|] eqn:Hread.
    { rewrite (ParseLambdaYML_read_fault H config w content n er) by done. by eexists _, _. }
    destruct Hbad as [[? [=]]|[[? [=]]|[ey Hy]]].
    rewrite (ParseLambdaYML_present H config w content) by done.
    rewrite Hy. by eexists _, _. }
  split; [|split; [|split]].
  - intros Hempty. exists e. unfold getBuildImage, bind.
    rewrite bool_decide_eq_false_2 by (by intros []). by rewrite Hparse.
  - intros Hempty. exists e. unfold getRunImage, bind.
    rewrite bool_decide_eq_false_2 by (by intros []). by rewrite Hparse.
  - intros Hne. unfold getBuildImage. by rewrite bool_decide_eq_true_2.
  - intros Hne. unfold getRunImage. by rewrite bool_decide_eq_true_2.
Qed.

Definition brokenOverrideWorld : World :=
  mkWorld {[ "/app/lambda.yml" := "builder: [" ]} [] [].

Lemma broken_override_document_fails_resolution_witness :
  (∃ e : error,
     getBuildImage yamlHost (withImages "" "" exampleConfig)
       "mlupin/docker-lambda:python3.9-build" brokenOverrideWorld =
       (Returns ("", Some e), brokenOverrideWorld)) ∧
  getRunImage yamlHost (withImages "" "explicit/run" exampleConfig)
    "mlupin/docker-lambda:python3.9" brokenOverrideWorld =
    (Returns ("explicit/run", None), brokenOverrideWorld).
Proof.
  split.
  - apply (proj1 (broken_override_document_fails_resolution yamlHost
                    (withImages "" "" exampleConfig) "mlupin/docker-lambda:python3.9-build"
                    brokenOverrideWorld "builder: [" eq_refl
                    (or_intror (or_intror (ex_intro _ "yaml: did not find expected key" eq_refl))))).
    reflexivity.
  - apply (proj2 (proj2 (proj2 (broken_override_document_fails_resolution yamlHost
                    (withImages "" "explicit/run" exampleConfig) "mlupin/docker-lambda:python3.9"
                    brokenOverrideWorld "builder: [" eq_refl
                    (or_intror (or_intror (ex_intro _ "yaml: did not find expected key" eq_refl))))))).
    simpl. discriminate.
Defined.
